(** * MLOS: the optimizer protocol and the homogeneous random forest

    A shallow embedding of

    - [mlos_core/optimizers/optimizer.py] (class [BaseOptimizer]), and
    - [mlos/Optimizers/RegressionModels/HomogeneousRandomForestRegressionModel.py]
      (class [HomogeneousRandomForestRegressionModel])

    together with the handful of pandas and numpy operations the two classes
    call.  Python exceptions are values of [Exn]; a method that mutates its
    object and may raise returns the object after the call next to the
    outcome, so that what was written before a [raise] stays visible. *)

From Stdlib Require Import List String Bool Arith ZArith QArith Qround Lia Lqa Psatz.
From Stdlib Require Import Permutation DecimalString.
Import ListNotations.

Local Open Scope string_scope.
Local Open Scope list_scope.
Local Open Scope nat_scope.

(** ** Exceptions and outcomes *)

Inductive Exn : Type :=
| ValueError (msg : string)
| NotImplementedError
| KeyError (key : string)
| IndexError
| TypeError
| CollaboratorError (msg : string).

Inductive result (A : Type) : Type :=
| Ok (a : A)
| Raise (e : Exn).

Arguments Ok {A} a.
Arguments Raise {A} e.

Definition bind {A B : Type} (m : result A) (k : A -> result B) : result B :=
  match m with
  | Ok a => k a
  | Raise e => Raise e
  end.

Declare Scope result_scope.
Delimit Scope result_scope with result.
Notation "x <- m ;; k" := (bind m (fun x => k))
  (at level 61, m at next level, right associativity) : result_scope.

Fixpoint mapM {A B : Type} (f : A -> result B) (l : list A) : result (list B) :=
  match l with
  | [] => Ok []
  | a :: l' =>
      match f a with
      | Raise e => Raise e
      | Ok b =>
          match mapM f l' with
          | Raise e => Raise e
          | Ok bs => Ok (b :: bs)
          end
      end
  end.

(** ** The pandas operations used by the two classes *)

Module Pandas.

(** A cell holds a number or a string; [None] is NaN, the missing value. *)
Inductive Value : Type :=
| Num (q : Q)
| Str (s : string).

Definition Cell : Type := option Value.

(** A row is its index label and its cells by column name. *)
Definition Row : Type := (nat * (string -> Cell))%type.

Record DataFrame : Type := mkDataFrame {
  columns : list string;
  rows : list Row
}.

(** A series of floats: index label and value. *)
Definition Series : Type := list (nat * Q).

Definition index (df : DataFrame) : list nat := map fst (rows df).

(** [len(df.index)] *)
Definition len (df : DataFrame) : nat := List.length (rows df).

Definition has_column (name : string) (cols : list string) : bool :=
  existsb (String.eqb name) cols.

Definition cell (r : Row) (name : string) : Cell := snd r name.

(** Outside the columns of its frame a row has no value. *)
Definition restrict (cols : list string) (r : Row) : Row :=
  (fst r, fun c => if has_column c cols then snd r c else None).

Definition union_columns (a b : list string) : list string :=
  a ++ filter (fun c => negb (has_column c a)) b.

Fixpoint drop_none {A : Type} (l : list (option A)) : list A :=
  match l with
  | [] => []
  | None :: l' => drop_none l'
  | Some a :: l' => a :: drop_none l'
  end.

(** [pd.concat(objs)] along the rows: [None] entries are dropped; nothing to
    concatenate is a [ValueError]; columns are united, rows keep their
    labels and their order. *)
Definition concat (objs : list (option DataFrame)) : result DataFrame :=
  match objs with
  | [] => Raise (ValueError "No objects to concatenate")
  | _ =>
      match drop_none objs with
      | [] => Raise (ValueError "All objects passed were None")
      | dfs =>
          Ok {| columns := fold_left union_columns (map columns dfs) [];
                rows := flat_map (fun df => map (restrict (columns df)) (rows df)) dfs |}
      end
  end.

Definition concat_series (objs : list Series) : result Series :=
  match objs with
  | [] => Raise (ValueError "No objects to concatenate")
  | _ => Ok (List.concat objs)
  end.

Definition set_cell (name : string) (v : Cell) (r : Row) : Row :=
  (fst r, fun c => if String.eqb c name then v else snd r c).

Definition nan_row (label : nat) : Row := (label, fun _ => None).

Fixpoint lookup_label (s : Series) (label : nat) : option Q :=
  match s with
  | [] => None
  | (l, v) :: s' => if Nat.eqb l label then Some v else lookup_label s' label
  end.

Fixpoint has_duplicates (labels : list nat) : bool :=
  match labels with
  | [] => false
  | l :: ls => existsb (Nat.eqb l) ls || has_duplicates ls
  end.

Fixpoint labels_eqb (a b : list nat) : bool :=
  match a, b with
  | [], [] => true
  | x :: a', y :: b' => Nat.eqb x y && labels_eqb a' b'
  | _, _ => false
  end.

Fixpoint zip_with {A B C : Type} (f : A -> B -> C) (l : list A) (m : list B) : list C :=
  match l, m with
  | a :: l', b :: m' => f a b :: zip_with f l' m'
  | _, _ => []
  end.

(** [df[name] = s].  The series is aligned on the index of the frame: with
    equal indexes the values are taken by position; a frame without rows
    takes the index of the series; otherwise the series is reindexed on the
    labels of the frame, which fails when its own labels repeat and gives
    NaN for a label it does not have. *)
Definition setitem (df : DataFrame) (name : string) (s : Series) : result DataFrame :=
  let cols := if has_column name (columns df) then columns df else columns df ++ [name] in
  if labels_eqb (index df) (map fst s) then
    Ok {| columns := cols;
          rows := zip_with (fun r lv => set_cell name (Some (Num (snd lv))) r) (rows df) s |}
  else if Nat.eqb (len df) 0 then
    Ok {| columns := cols;
          rows := map (fun lv => set_cell name (Some (Num (snd lv))) (nan_row (fst lv))) s |}
  else if has_duplicates (map fst s) then
    Raise (ValueError "cannot reindex on an axis with duplicate labels")
  else
    Ok {| columns := cols;
          rows := map (fun r => set_cell name (option_map Num (lookup_label s (fst r))) r)
                      (rows df) |}.

Definition numeric (name : string) (r : Row) : option Q :=
  match cell r name with
  | Some (Num q) => Some q
  | _ => None
  end.

Definition is_str (name : string) (r : Row) : bool :=
  match cell r name with
  | Some (Str _) => true
  | _ => false
  end.

Definition notna (name : string) (r : Row) : bool :=
  match numeric name r with
  | Some _ => true
  | None => false
  end.




(** The first row of [r :: rs] whose value in [name] is the least: the
    candidate is replaced only by a strictly smaller value. *)
Fixpoint argmin_first (name : string) (best : Row) (bq : Q) (rs : list Row) : Row :=
  match rs with
  | [] => best
  | r :: rs' =>
      match numeric name r with
      | Some q => if Qlt_le_dec q bq then argmin_first name r q rs'
                  else argmin_first name best bq rs'
      | None => argmin_first name best bq rs'
      end
  end.

Definition smallest (name : string) (dropped : list Row) : list Row :=
  match dropped with
  | [] => []
  | r :: rs =>
      match numeric name r with
      | Some q => [argmin_first name r q rs]
      | None => []
      end
  end.

(** [df.nsmallest(1, columns=name)] with the default [keep='first']: the
    column must exist and be numeric; rows with NaN in it are set aside and
    only used when no other row is left. *)
Definition nsmallest1 (name : string) (df : DataFrame) : result DataFrame :=
  if negb (has_column name (columns df)) then Raise (KeyError name)
  else if existsb (is_str name) (rows df) then Raise TypeError
  else
    let dropped := filter (notna name) (rows df) in
    let nans := filter (fun r => negb (notna name r)) (rows df) in
    Ok {| columns := columns df;
          rows := firstn 1 (smallest name dropped ++ nans) |}.

(** [df[names]]: the frame with the listed columns, a [KeyError] for a
    name that is not a column. *)
Definition select_columns (names : list string) (df : DataFrame) : result DataFrame :=
  match find (fun c => negb (has_column c (columns df))) names with
  | Some missing => Raise (KeyError missing)
  | None => Ok {| columns := names; rows := map (restrict names) (rows df) |}
  end.

(** [df[df.notnull().all(axis=1)]]: the rows without a missing value. *)
Definition notnull_all (cols : list string) (r : Row) : bool :=
  forallb (fun c => match cell r c with Some _ => true | None => false end) cols.

Definition filter_notnull (df : DataFrame) : DataFrame :=
  {| columns := columns df; rows := filter (notnull_all (columns df)) (rows df) |}.

(** [df.iloc[ids]]: the rows at the given positions, in the order given,
    an [IndexError] for a position past the end. *)
Definition iloc (df : DataFrame) (ids : list nat) : result DataFrame :=
  match mapM (fun i => match nth_error (rows df) i with
                       | Some r => Ok r
                       | None => Raise IndexError
                       end) ids with
  | Ok rs => Ok {| columns := columns df; rows := rs |}
  | Raise e => Raise e
  end.

End Pandas.

(** ** [BaseOptimizer] *)

Module Optimizers.
Import Pandas.

Section BaseOptimizer.

(** [ConfigSpace.ConfigurationSpace], compared by [!=]. *)
Variable Space : Type.
Variable Space_eq_dec : forall a b : Space, {a = b} + {a <> b}.

(** What a concrete optimizer keeps besides the attributes of the base
    class. *)
Variable Model : Type.

Record BaseSpaceAdapter : Type := mkAdapter {
  orig_parameter_space : Space;
  target_parameter_space : Space;
  transform : DataFrame -> result DataFrame;
  inverse_transform : DataFrame -> result DataFrame
}.

(** One entry of [self._observations]: what one call of [register]
    received. *)
Definition Observation : Type := (DataFrame * Series * option DataFrame)%type.
Definition Pending : Type := (DataFrame * option DataFrame)%type.

(** The abstract methods, as a concrete optimizer supplies them.  Each
    returns the optimizer's own state after the call and the outcome. *)
Record Subclass : Type := mkSubclass {
  _register : Model -> DataFrame -> Series -> option DataFrame -> Model * result unit;
  _suggest : Model -> option DataFrame -> Model * result DataFrame;
  _register_pending :
    Model -> list Pending -> DataFrame -> option DataFrame ->
    Model * list Pending * result unit
}.

Record BaseOptimizer : Type := mkOptimizer {
  parameter_space : Space;
  optimizer_parameter_space : Space;
  _space_adapter : option BaseSpaceAdapter;
  _observations : list Observation;
  _pending_observations : list Pending;
  model : Model
}.

Definition with_observations (self : BaseOptimizer) (obs : list Observation) : BaseOptimizer :=
  {| parameter_space := parameter_space self;
     optimizer_parameter_space := optimizer_parameter_space self;
     _space_adapter := _space_adapter self;
     _observations := obs;
     _pending_observations := _pending_observations self;
     model := model self |}.

Definition with_model (self : BaseOptimizer) (m : Model) : BaseOptimizer :=
  {| parameter_space := parameter_space self;
     optimizer_parameter_space := optimizer_parameter_space self;
     _space_adapter := _space_adapter self;
     _observations := _observations self;
     _pending_observations := _pending_observations self;
     model := m |}.

Definition with_pending (self : BaseOptimizer) (p : list Pending) : BaseOptimizer :=
  {| parameter_space := parameter_space self;
     optimizer_parameter_space := optimizer_parameter_space self;
     _space_adapter := _space_adapter self;
     _observations := _observations self;
     _pending_observations := p;
     model := model self |}.

(** [BaseOptimizer.__init__]; [m0] is what the concrete class sets up. *)
Definition __init__ (parameter_space0 : Space) (space_adapter : option BaseSpaceAdapter)
           (m0 : Model) : result BaseOptimizer :=
  let optimizer_parameter_space0 :=
    match space_adapter with
    | None => parameter_space0
    | Some a => target_parameter_space a
    end in
  match space_adapter with
  | Some a =>
      if Space_eq_dec (orig_parameter_space a) parameter_space0
      then Ok (mkOptimizer parameter_space0 optimizer_parameter_space0 space_adapter [] [] m0)
      else Raise (ValueError "Given parameter space differs from the one given to space adapter")
  | None => Ok (mkOptimizer parameter_space0 optimizer_parameter_space0 space_adapter [] [] m0)
  end.

Variable impl : Subclass.

(** [BaseOptimizer.register] *)
Definition register (self : BaseOptimizer) (configurations : DataFrame) (scores : Series)
           (context : option DataFrame) : BaseOptimizer * result unit :=
  let self := with_observations self (_observations self ++ [(configurations, scores, context)]) in
  match (match _space_adapter self with
         | Some a => inverse_transform a configurations
         | None => Ok configurations
         end) with
  | Raise e => (self, Raise e)
  | Ok configurations =>
      let (m, r) := _register impl (model self) configurations scores context in
      (with_model self m, r)
  end.

(** [BaseOptimizer.suggest] *)
Definition suggest (self : BaseOptimizer) (context : option DataFrame)
  : BaseOptimizer * result DataFrame :=
  let (m, r) := _suggest impl (model self) context in
  let self := with_model self m in
  match r with
  | Raise e => (self, Raise e)
  | Ok configuration =>
      match _space_adapter self with
      | Some a => (self, transform a configuration)
      | None => (self, Ok configuration)
      end
  end.

(** [register_pending] is abstract in the base class: the concrete method
    works on the pending list and on the optimizer's own state. *)
Definition register_pending (self : BaseOptimizer) (configurations : DataFrame)
           (context : option DataFrame) : BaseOptimizer * result unit :=
  let '(m, p, r) :=
    _register_pending impl (model self) (_pending_observations self) configurations context in
  (with_pending (with_model self m) p, r).

(** [BaseOptimizer.get_observations] *)
Definition get_observations (self : BaseOptimizer) : result DataFrame :=
  if Nat.eqb (List.length (_observations self)) 0 then
    Raise (ValueError "No observations registered yet.")
  else
    (configs <- concat (map (fun o : Observation => Some (fst (fst o))) (_observations self)) ;;
     scores <- concat_series (map (fun o : Observation => snd (fst o)) (_observations self)) ;;
     match concat (map (fun o : Observation => snd o) (_observations self)) with
     | Raise (ValueError _) =>
         setitem configs "score" scores
     | Raise e => Raise e
     | Ok _ =>
         _ <- setitem configs "score" scores ;;
         Raise NotImplementedError
     end)%result.

(** [BaseOptimizer.get_best_observation] *)
Definition get_best_observation (self : BaseOptimizer) : result DataFrame :=
  if Nat.eqb (List.length (_observations self)) 0 then
    Raise (ValueError "No observations registered yet.")
  else
    (observations <- get_observations self ;;
     nsmallest1 "score" observations)%result.

(** A caller's session: any interleaving of the three calls, whatever
    their outcomes. *)
Inductive Call : Type :=
| CallRegister (configurations : DataFrame) (scores : Series) (context : option DataFrame)
| CallSuggest (context : option DataFrame)
| CallRegisterPending (configurations : DataFrame) (context : option DataFrame).

Definition step (self : BaseOptimizer) (c : Call) : BaseOptimizer :=
  match c with
  | CallRegister configurations scores context =>
      fst (register self configurations scores context)
  | CallSuggest context => fst (suggest self context)
  | CallRegisterPending configurations context =>
      fst (register_pending self configurations context)
  end.

Definition run (self : BaseOptimizer) (calls : list Call) : BaseOptimizer :=
  fold_left step calls self.

(** What the [register] calls of a session passed, in call order. *)
Fixpoint registered (calls : list Call) : list Observation :=
  match calls with
  | [] => []
  | CallRegister configurations scores context :: calls' =>
      (configurations, scores, context) :: registered calls'
  | _ :: calls' => registered calls'
  end.

(** What [register] hands to [_register]: the configurations after the
    inverse transform of the adapter, when there is one. *)
Definition adapted (self : BaseOptimizer) (configurations : DataFrame) : result DataFrame :=
  match _space_adapter self with
  | Some a => inverse_transform a configurations
  | None => Ok configurations
  end.

(** The rows one observation contributes to the table of
    [get_observations] when its scores are aligned with its
    configurations: every configuration row, in order, with its score. *)
Definition observation_rows (o : Observation) : list Row :=
  zip_with (fun r lv => set_cell "score" (Some (Num (snd lv)))
                                 (restrict (columns (fst (fst o))) r))
           (rows (fst (fst o))) (snd (fst o)).

(** The columns of that table: those of the configurations and
    ["score"]. *)
Definition table_columns (obs : list Observation) : list string :=
  let cols := fold_left union_columns (map (fun o : Observation => columns (fst (fst o))) obs) [] in
  if has_column "score" cols then cols else cols ++ ["score"].

(** The score series has the index of the configurations and there is no
    context. *)
Definition aligned (o : Observation) : Prop :=
  index (fst (fst o)) = map fst (snd (fst o)) /\ snd o = None.

End BaseOptimizer.

Arguments mkAdapter {Space}.
Arguments orig_parameter_space {Space}.
Arguments target_parameter_space {Space}.
Arguments transform {Space}.
Arguments inverse_transform {Space}.
Arguments mkSubclass {Model}.
Arguments _register {Model}.
Arguments _suggest {Model}.
Arguments _register_pending {Model}.
Arguments mkOptimizer {Space Model}.
Arguments parameter_space {Space Model}.
Arguments optimizer_parameter_space {Space Model}.
Arguments _space_adapter {Space Model}.
Arguments _observations {Space Model}.
Arguments _pending_observations {Space Model}.
Arguments model {Space Model}.
Arguments with_observations {Space Model}.
Arguments with_model {Space Model}.
Arguments with_pending {Space Model}.
Arguments __init__ {Space} Space_eq_dec {Model}.
Arguments register {Space Model}.
Arguments suggest {Space Model}.
Arguments register_pending {Space Model}.
Arguments get_observations {Space Model}.
Arguments get_best_observation {Space Model}.
Arguments step {Space Model}.
Arguments adapted {Space Model}.
Arguments run {Space Model}.

End Optimizers.

(** ** The numpy operations used by the forest *)

Module Numpy.

Fixpoint sum (l : list Q) : Q :=
  match l with
  | [] => 0%Q
  | x :: l' => (x + sum l')%Q
  end.

(** [np.mean] of a list of numbers, in exact arithmetic.  The forest only
    takes the mean of a list that is not empty. *)
Definition mean (l : list Q) : Q :=
  (sum l / inject_Z (Z.of_nat (List.length l)))%Q.

(** [len(l)] as a number. *)
Definition count (l : list Q) : Q := inject_Z (Z.of_nat (List.length l)).

(** The process-wide generator behind [np.random.seed] and
    [np.random.randint].  [seed i] is the state the generator is put in by
    [np.random.seed(i)]; [randint st low high size] is the draw and the
    state after it. *)
Class Random (State : Type) : Type := {
  seed : nat -> State;
  randint : State -> nat -> nat -> Z -> result (list nat) * State
}.

(** What numpy promises about [randint]: [size] integers from
    [[low, high)], and no complaint about an empty range as long as no
    sample is asked for. *)
Class RandomLaws (State : Type) `{Random State} : Prop := {
  randint_draws :
    forall (st : State) (low high : nat) (size : Z),
      (0 <= size)%Z ->
      (size = 0%Z \/ low < high) ->
      exists ids st',
        randint st low high size = (Ok ids, st') /\
        Z.of_nat (List.length ids) = size /\
        Forall (fun i => low <= i < high) ids
}.

End Numpy.

(** ** Regression models *)

Module Prediction.

(** Modelled from the spec: the class [Prediction] is imported from
    [.Prediction], which is not among the sources at hand.  Its fields are
    those of section 3 ("a validity flag, and if valid, a mean, a variance,
    and a support count"); a keyword argument the caller leaves out is
    absent, and a Prediction built without a [valid] argument is valid
    (section 4.2: "emit a valid Prediction carrying the aggregate mean,
    aggregate variance, and count"). *)
Record t : Type := mk {
  target_name : string;
  mean : option Q;
  variance : option Q;
  count : option nat;
  valid : bool
}.

(** [Prediction(target_name=n, valid=False)] *)
Definition invalid (n : string) : t :=
  {| target_name := n; mean := None; variance := None; count := None; valid := false |}.

(** [Prediction(target_name=n, mean=m, variance=v, count=c)] *)
Definition make (n : string) (m v : Q) (c : nat) : t :=
  {| target_name := n; mean := Some m; variance := Some v; count := Some c; valid := true |}.

End Prediction.

Module RegressionModel.
Import Pandas.

(** The interface of an ensemble member ([DecisionTreeRegressionModel] in
    the forest).  [fit] may use the process-wide generator, so it takes and
    returns its state. *)
Class t (State : Type) (M : Type) : Type := {
  input_dimension_names : M -> list string;
  should_fit : M -> nat -> bool;
  fit : M -> State -> DataFrame -> DataFrame -> M * State * result unit;
  predict : M -> DataFrame -> result (list Prediction.t)
}.

End RegressionModel.

Module HomogeneousRandomForestRegressionModel.
Import Pandas.

Record Config : Type := mkConfig {
  n_estimators : nat;
  features_fraction_per_estimator : Q;
  samples_fraction_per_estimator : Q
}.

(** The hypergrid adapters, for what the forest asks of them. *)
Record HypergridAdapter : Type := mkHypergridAdapter {
  translate_dataframe : DataFrame -> result DataFrame
}.

(** What the loop of [fit] did for one member: the indices it drew and,
    when the member was fitted, the two frames handed to the member. *)
Record FitEvent : Type := mkFitEvent {
  estimator_index : nat;
  selected_observation_ids : list nat;
  fitted_on : option (DataFrame * DataFrame)
}.

Definition enumerate {A : Type} (l : list A) : list (nat * A) :=
  combine (seq 0 (List.length l)) l.

Section Forest.

Context {State : Type} {M : Type}.
Context `{Numpy.Random State} `{RegressionModel.t State M}.

Record t : Type := mk {
  model_config : Config;
  _input_space_adapter : HypergridAdapter;
  _output_space_adapter : HypergridAdapter;
  target_dimension_names : list string;
  _decision_trees : list M
}.

Definition with_decision_trees (self : t) (trees : list M) : t :=
  {| model_config := model_config self;
     _input_space_adapter := _input_space_adapter self;
     _output_space_adapter := _output_space_adapter self;
     target_dimension_names := target_dimension_names self;
     _decision_trees := trees |}.

(** The body of the loop of [fit], for member [i]. *)
Definition fit_estimator (feature_values target_values : DataFrame)
           (num_observations_per_estimator : Z) (st : State) (i : nat) (tree : M)
  : M * State * list FitEvent * result unit :=
  match select_columns (RegressionModel.input_dimension_names tree) feature_values with
  | Raise e => (tree, st, [], Raise e)
  | Ok estimators_df =>
      let filtered_observations := filter_notnull estimators_df in
      let num_filtered_observations := len filtered_observations in
      let st := Numpy.seed i in
      let (drawn, st) :=
        Numpy.randint st 0 num_filtered_observations
          (Z.min (Z.of_nat num_filtered_observations) num_observations_per_estimator) in
      match drawn with
      | Raise e => (tree, st, [], Raise e)
      | Ok selected_observation_ids =>
          let num_selected_observations := List.length selected_observation_ids in
          if RegressionModel.should_fit tree num_selected_observations then
            match iloc filtered_observations selected_observation_ids with
            | Raise e => (tree, st, [mkFitEvent i selected_observation_ids None], Raise e)
            | Ok features =>
                match iloc target_values selected_observation_ids with
                | Raise e => (tree, st, [mkFitEvent i selected_observation_ids None], Raise e)
                | Ok targets =>
                    let '(tree', st', r) := RegressionModel.fit tree st features targets in
                    (tree', st',
                     [mkFitEvent i selected_observation_ids (Some (features, targets))], r)
                end
            end
          else (tree, st, [mkFitEvent i selected_observation_ids None], Ok tt)
      end
  end.

(** The loop of [fit] over [(i, tree)] pairs, in the order given; it
    stops at the first exception. *)
Fixpoint fit_estimators (feature_values target_values : DataFrame)
         (num_observations_per_estimator : Z) (st : State) (pairs : list (nat * M))
  : list (nat * M) * State * list FitEvent * result unit :=
  match pairs with
  | [] => ([], st, [], Ok tt)
  | (i, tree) :: rest =>
      let '(tree', st', ev, r) :=
        fit_estimator feature_values target_values num_observations_per_estimator st i tree in
      match r with
      | Raise e => ((i, tree') :: rest, st', ev, Raise e)
      | Ok _ =>
          let '(rest', st'', evs, r') :=
            fit_estimators feature_values target_values num_observations_per_estimator
                           st' rest in
          ((i, tree') :: rest', st'', ev ++ evs, r')
      end
  end.

(** [math.ceil(samples_fraction_per_estimator * total_num_observations)] *)
Definition num_observations_per_estimator (self : t) (total_num_observations : nat) : Z :=
  Qceiling (samples_fraction_per_estimator (model_config self)
            * inject_Z (Z.of_nat total_num_observations)).

(** [HomogeneousRandomForestRegressionModel.fit] *)
Definition fit (self : t) (st : State) (feature_values_pandas_frame target_values_pandas_frame : DataFrame)
  : t * State * list FitEvent * result unit :=
  match translate_dataframe (_input_space_adapter self) feature_values_pandas_frame with
  | Raise e => (self, st, [], Raise e)
  | Ok feature_values =>
      match translate_dataframe (_output_space_adapter self) target_values_pandas_frame with
      | Raise e => (self, st, [], Raise e)
      | Ok target_values =>
          let total_num_observations := len feature_values in
          let '(pairs, st', evs, r) :=
            fit_estimators feature_values target_values
              (num_observations_per_estimator self total_num_observations)
              st (enumerate (_decision_trees self)) in
          (with_decision_trees self (map snd pairs), st', evs, r)
      end
  end.

Definition mean_of (prediction : Prediction.t) : result Q :=
  match Prediction.mean prediction with
  | Some m => Ok m
  | None => Raise TypeError
  end.

(** [prediction.variance + prediction.mean ** 2] *)
Definition second_moment_of (prediction : Prediction.t) : result Q :=
  match Prediction.variance prediction, Prediction.mean prediction with
  | Some v, Some m => Ok (v + m ^ 2)%Q
  | _, _ => Raise TypeError
  end.

Definition is_empty {A : Type} (l : list A) : bool :=
  match l with
  | [] => true
  | _ :: _ => false
  end.

(** The body of the loop of [predict], from the members' predictions for
    one row. *)
Definition aggregate (self : t) (observation_predictions : list Prediction.t)
  : result Prediction.t :=
  let observation_predictions := filter Prediction.valid observation_predictions in
  if is_empty observation_predictions
     || negb (existsb Prediction.valid observation_predictions)
  then
    match target_dimension_names self with
    | target :: _ => Ok (Prediction.invalid target)
    | [] => Raise IndexError
    end
  else
    (means <- mapM mean_of (filter Prediction.valid observation_predictions) ;;
     let prediction_mean := Numpy.mean means in
     second_moments <- mapM second_moment_of
                            (filter (fun _ => true) observation_predictions) ;;
     let prediction_variance := (Numpy.mean second_moments - prediction_mean ^ 2)%Q in
     match observation_predictions with
     | first :: _ =>
         Ok (Prediction.make (Prediction.target_name first) prediction_mean
                             prediction_variance (List.length observation_predictions))
     | [] => Raise IndexError
     end)%result.

Definition prediction_at (observation_id : nat) (estimator_predictions : list Prediction.t)
  : result Prediction.t :=
  match nth_error estimator_predictions observation_id with
  | Some p => Ok p
  | None => Raise IndexError
  end.

(** [HomogeneousRandomForestRegressionModel.predict] *)
Definition predict (self : t) (feature_values_pandas_frame : DataFrame)
  : result (list Prediction.t) :=
  (feature_values <- translate_dataframe (_input_space_adapter self)
                                         feature_values_pandas_frame ;;
   predictions <- mapM (fun estimator => RegressionModel.predict estimator feature_values)
                       (_decision_trees self) ;;
   mapM (fun observation_id =>
           observation_predictions <- mapM (prediction_at observation_id) predictions ;;
           aggregate self observation_predictions)
        (seq 0 (len feature_values)))%result.

(** The parts of what [fit] returns: the forest after the call, what the
    loop did member by member, and the outcome. *)
Definition fitted {A : Type} (run : A * State * list FitEvent * result unit) : A :=
  fst (fst (fst run)).

Definition events {A : Type} (run : A * State * list FitEvent * result unit)
  : list FitEvent :=
  snd (fst run).

Definition outcome {A : Type} (run : A * State * list FitEvent * result unit)
  : result unit :=
  snd run.



(** The draw of member [i] as the specification words it: the generator
    is reseeded with [i], then [min(filtered_row_count, rows_per_estimator)]
    indices below [filtered_row_count] are drawn. *)
Definition selection (i : nat) (input_dimension_names : list string)
           (feature_values : DataFrame) (rows_per_estimator : Z) : result (list nat) :=
  match select_columns input_dimension_names feature_values with
  | Raise e => Raise e
  | Ok estimators_df =>
      let filtered_row_count := len (filter_notnull estimators_df) in
      fst (Numpy.randint (Numpy.seed i) 0 filtered_row_count
                         (Z.min (Z.of_nat filtered_row_count) rows_per_estimator))
  end.


(** A member's prediction that is valid carries a mean and a variance. *)
Definition well_formed (p : Prediction.t) : Prop :=
  Prediction.valid p = true ->
  exists m v, Prediction.mean p = Some m /\ Prediction.variance p = Some v.

(** [member_variance + member_mean ** 2], member by member. *)
Definition second_moments (variances means : list Q) : list Q :=
  zip_with (fun v m => (v + m ^ 2)%Q) variances means.

(** The members' predictions for row [observation_id]. *)
Definition predictions_for (observation_id : nat) (predictions : list (list Prediction.t))
           (observation_predictions : list Prediction.t) : Prop :=
  Forall2 (fun estimator_predictions p => nth_error estimator_predictions observation_id = Some p)
          predictions observation_predictions.

End Forest.

Arguments t : clear implicits.

End HomogeneousRandomForestRegressionModel.

(** ** The construction of the forest *)

Module ForestConstruction.
Import Pandas.
Import HomogeneousRandomForestRegressionModel.

(** How the construction of an object ends: with the object, with a failed
    [assert], or with an exception of a collaborator. *)
Inductive Failure : Type :=
| AssertionError (msg : string)
| Exception (e : Exn).

Inductive built (A : Type) : Type :=
| Built (a : A)
| Failed (f : Failure).

Arguments Built {A} a.
Arguments Failed {A} f.

(** [f"{i}"] *)
Definition format (i : nat) : string := NilZero.string_of_uint (Nat.to_uint i).

(** A dimension of a hypergrid: its name and what it ranges over, which is
    of no concern to the forest. *)
Record Dimension (Domain : Type) : Type := mkDimension {
  name : string;
  domain : Domain
}.

Arguments name {Domain}.
Arguments domain {Domain}.
Arguments mkDimension {Domain}.

(** [SimpleHypergrid(name=..., dimensions=...)] *)
Record SimpleHypergrid (Domain : Type) : Type := mkSimpleHypergrid {
  grid_name : string;
  dimensions : list (Dimension Domain)
}.

Arguments grid_name {Domain}.
Arguments dimensions {Domain}.
Arguments mkSimpleHypergrid {Domain}.

(** The hypergrids given to the forest, the generator of Python's [random]
    module and the classes the constructor calls come from modules that are
    not among the sources at hand: they are taken as they are.
    [hypergrid_random] is [space.random()] with the names and values of the
    point, [hypergrid_getitem] is [space[name]], [adapter_of] is the
    categorical-to-discrete adapter over the composite-to-simple adapter
    and [adapter_dimensions] its [dimensions], [new_tree] is the
    constructor of [DecisionTreeRegressionModel]. *)
Class Environment (Domain Hypergrid PyRandom M : Type) : Type := {
  hypergrid_dimensions : Hypergrid -> list (Dimension Domain);
  hypergrid_random : Hypergrid -> PyRandom -> list (string * Value) * PyRandom;
  hypergrid_getitem : Hypergrid -> string -> result (Dimension Domain);
  flatten_dimension_name : string -> string;
  random_random : PyRandom -> PyRandom;
  random_sample : PyRandom -> list string -> Z -> result (list string) * PyRandom;
  adapter_of : Hypergrid -> HypergridAdapter;
  adapter_dimensions : Hypergrid -> list (Dimension Domain);
  new_tree : Config -> SimpleHypergrid Domain -> SimpleHypergrid Domain -> result M
}.

Section Construction.

Context {Domain Hypergrid PyRandom M : Type}.
Context `{Environment Domain Hypergrid PyRandom M}.

(** The copy of [space[name]] under the flattened name. *)
Definition flat_dimension (original_space : Hypergrid) (original_dimension_name : string)
  : result (Dimension Domain) :=
  match hypergrid_getitem original_space original_dimension_name with
  | Raise e => Raise e
  | Ok original_dimension =>
      Ok (mkDimension (flatten_dimension_name original_dimension_name)
                      (domain original_dimension))
  end.

(** [_create_random_flat_subspace] *)
Definition _create_random_flat_subspace (original_space : Hypergrid) (subspace_name : string)
           (max_num_dimensions : Z) (st : PyRandom)
  : result (SimpleHypergrid Domain) * PyRandom :=
  let (random_point, st) := hypergrid_random original_space st in
  let original_dimension_names := map fst random_point in
  let (sampled, st) :=
    random_sample st original_dimension_names
                  (Z.min (Z.of_nat (List.length original_dimension_names)) max_num_dimensions) in
  match sampled with
  | Raise e => (Raise e, st)
  | Ok selected_dimension_names =>
      match mapM (flat_dimension original_space) selected_dimension_names with
      | Raise e => (Raise e, st)
      | Ok flat_dimensions => (Ok (mkSimpleHypergrid subspace_name flat_dimensions), st)
      end
  end.

(** [max(1, math.ceil(total_num_dimensions * features_fraction_per_estimator))] *)
Definition features_per_estimator (model_config : Config) (input_space : Hypergrid) : Z :=
  Z.max 1 (Qceiling (inject_Z (Z.of_nat (List.length (map name (hypergrid_dimensions input_space))))
                     * features_fraction_per_estimator model_config)).

(** One round of the loop of [_create_estimators]. *)
Definition create_estimator (model_config : Config) (input_space output_space : Hypergrid)
           (i : nat) (st : PyRandom) : result M * PyRandom :=
  let (estimator_input_space, st) :=
    _create_random_flat_subspace input_space ("estimator_" ++ format i ++ "_input_space")
                                 (features_per_estimator model_config input_space) st in
  match estimator_input_space with
  | Raise e => (Raise e, st)
  | Ok estimator_input_space =>
      let (estimator_output_space, st) :=
        _create_random_flat_subspace output_space
                                     ("estimator_" ++ format i ++ "_output_space") 1 st in
      match estimator_output_space with
      | Raise e => (Raise e, st)
      | Ok estimator_output_space =>
          (new_tree model_config estimator_input_space estimator_output_space, st)
      end
  end.

(** The loop of [_create_estimators] over the indices [range]; the trees
    are appended to [_decision_trees]. *)
Fixpoint create_estimators_loop (model_config : Config) (input_space output_space : Hypergrid)
         (range : list nat) (_decision_trees : list M) (st : PyRandom)
  : result (list M) * PyRandom :=
  match range with
  | [] => (Ok _decision_trees, st)
  | i :: range' =>
      let (estimator, st) := create_estimator model_config input_space output_space i st in
      match estimator with
      | Raise e => (Raise e, st)
      | Ok estimator =>
          create_estimators_loop model_config input_space output_space range'
                                 (_decision_trees ++ [estimator]) st
      end
  end.

(** [_create_estimators]; the request id of the log message is drawn from
    the generator first. *)
Definition _create_estimators (model_config : Config) (input_space output_space : Hypergrid)
           (_decision_trees : list M) (st : PyRandom) : result (list M) * PyRandom :=
  let st := random_random st in
  create_estimators_loop model_config input_space output_space
                         (seq 0 (n_estimators model_config)) _decision_trees st.

(** [HomogeneousRandomForestRegressionModel.__init__].  Its first [assert]
    is on [HomogeneousRandomForestRegressionModelConfig.contains], which
    returns [True] for every configuration, so that only the second one can
    fail; the logger and the two adapters are built without drawing from
    the generator. *)
Definition __init__ (model_config : Config) (input_space output_space : Hypergrid)
           (st : PyRandom) : built (HomogeneousRandomForestRegressionModel.t M) * PyRandom :=
  let _input_space_adapter := adapter_of input_space in
  let _output_space_adapter := adapter_of output_space in
  let target_dimension_names := map name (adapter_dimensions output_space) in
  if Nat.eqb (List.length target_dimension_names) 1 then
    match _create_estimators model_config input_space output_space [] st with
    | (Raise e, st) => (Failed (Exception e), st)
    | (Ok _decision_trees, st) =>
        (Built (HomogeneousRandomForestRegressionModel.mk
                  model_config _input_space_adapter _output_space_adapter
                  target_dimension_names _decision_trees), st)
    end
  else (Failed (AssertionError "Single target predictions for now."), st).

End Construction.

End ForestConstruction.

(** ** [OptimizerFactory] *)

Module OptimizerFactory.
Import Pandas Optimizers.

(** [OptimizerType]: the members of the enumeration; the value of a member
    is a class of optimizers. *)
Inductive OptimizerType : Type :=
| RANDOM
| EMUKIT
| SKOPT.

Section Factory.

Variable Space : Type.

(** A dictionary of keyword arguments; [None] stands for Python's [None],
    the default of both [optimizer_kwargs] and [space_adapter_kwargs]. *)
Variable Kwargs : Type.

(** [SpaceAdapterType], an enumeration of adapter classes, and the concrete
    optimizers: both come from modules that are not among the sources at
    hand, so the constructors of the classes are taken as they are. *)
Variable SpaceAdapterType : Type.
Variable ConcreteOptimizer : Type.
Variable space_adapter_class :
  SpaceAdapterType -> Space -> Kwargs -> result (BaseSpaceAdapter Space).
Variable optimizer_class :
  OptimizerType -> Space -> option (BaseSpaceAdapter Space) -> Kwargs ->
  result ConcreteOptimizer.

(** [f(..., **kwargs)]: unpacking [None] is a [TypeError], raised before
    [f] is called. *)
Definition unpack (kwargs : option Kwargs) : result Kwargs :=
  match kwargs with
  | Some mapping => Ok mapping
  | None => Raise TypeError
  end.

(** [OptimizerFactory.create] *)
Definition create (parameter_space : Space) (optimizer_type : OptimizerType)
           (optimizer_kwargs : option Kwargs)
           (space_adapter_type : option SpaceAdapterType)
           (space_adapter_kwargs : option Kwargs) : result ConcreteOptimizer :=
  (space_adapter <-
     match space_adapter_type with
     | None => Ok None
     | Some adapter_type =>
         kwargs <- unpack space_adapter_kwargs ;;
         adapter <- space_adapter_class adapter_type parameter_space kwargs ;;
         Ok (Some adapter)
     end ;;
   kwargs <- unpack optimizer_kwargs ;;
   optimizer_class optimizer_type parameter_space space_adapter kwargs)%result.

End Factory.

Arguments create {Space Kwargs SpaceAdapterType ConcreteOptimizer}.

End OptimizerFactory.

(** ** Notions used to state properties of the optimizer *)

Module OptimizerNotions.
Import Pandas Optimizers.

(** The score series of the observation has the index of its
    configurations. *)
Definition index_aligned (o : Observation) : Prop :=
  index (fst (fst o)) = map fst (snd (fst o)).

(** The observation was registered with a context. *)
Definition has_context (o : Observation) : Prop := snd o <> None.


End OptimizerNotions.

(** ** Notions used to state properties of the forest *)

Module ForestNotions.
Import Pandas.
Import HomogeneousRandomForestRegressionModel.



Section Notions.

Context {State M : Type} `{RegressionModel.t State M}.


End Notions.

End ForestNotions.

(** * Instances used in examples *)

Module OptimizerExamples.
Import Pandas Optimizers.

(** Configurations over one parameter, ["x"]. *)
Definition config_row (lx : nat * Q) : Row :=
  (fst lx, fun c => if String.eqb c "x" then Some (Num (snd lx)) else None).

Definition configs (xs : list (nat * Q)) : DataFrame :=
  {| columns := ["x"]; rows := map config_row xs |}.

(** An optimizer whose methods accept whatever they are given. *)
Definition accept_all : Subclass unit :=
  {| _register := fun m _ _ _ => (m, Ok tt);
     _suggest := fun m _ => (m, Ok (configs [(0, 1%Q)]));
     _register_pending := fun m p c ctx => (m, p ++ [(c, ctx)], Ok tt) |}.

(** An optimizer whose [_register] refuses a context. *)
Definition refuse_context : Subclass unit :=
  {| _register := fun m _ _ ctx =>
                    match ctx with
                    | Some _ => (m, Raise NotImplementedError)
                    | None => (m, Ok tt)
                    end;
     _suggest := fun m _ => (m, Ok (configs [(0, 1%Q)]));
     _register_pending := fun m p c ctx => (m, p ++ [(c, ctx)], Ok tt) |}.

(** An optimizer whose model cannot be updated. *)
Definition broken_model : Subclass unit :=
  {| _register := fun m _ _ _ => (m, Raise (CollaboratorError "model update failed"));
     _suggest := fun m _ => (m, Raise (CollaboratorError "no model"));
     _register_pending := fun m p _ _ => (m, p, Ok tt) |}.

(** Spaces named by a string; an optimizer without adapter and without
    history. *)
Definition fresh : BaseOptimizer string unit :=
  mkOptimizer "space" "space" None [] [] tt.


Definition identity_adapter (orig target : string) : BaseSpaceAdapter string :=
  mkAdapter orig target (fun df => Ok df) (fun df => Ok df).

(** A session of two single-row registrations with a suggestion and a
    pending registration in between. *)
Definition session : list Call :=
  [CallRegister (configs [(0, 1%Q)]) [(0, 5%Q)] None;
   CallSuggest None;
   CallRegisterPending (configs [(0, 9%Q)]) None;
   CallRegister (configs [(0, 2%Q)]) [(0, 3%Q)] None].


End OptimizerExamples.

Module ForestExamples.
Import Pandas.
Import HomogeneousRandomForestRegressionModel.

(** A generator that counts: good enough to run the forest on examples. *)
Definition counting_randint (st low high : nat) (size : Z) : result (list nat) * nat :=
  if (size <? 0)%Z then (Raise (ValueError "negative dimensions are not allowed"), st)
  else if (size =? 0)%Z then (Ok [], st)
  else if high <=? low then (Raise (ValueError "low >= high"), st)
  else (Ok (map (fun j => low + (st + j) mod (high - low)) (seq 0 (Z.to_nat size))),
        st + Z.to_nat size).

#[global] Instance counting : Numpy.Random nat :=
  {| Numpy.seed := fun i => i; Numpy.randint := counting_randint |}.

(** A member that answers every row with the same prediction, wants more
    than [min_samples_to_fit] samples, and keeps the frames it was fitted
    on. *)
Record Stub : Type := mkStub {
  dimensions : list string;
  min_samples_to_fit : nat;
  answer : Prediction.t;
  fitted_with : list (DataFrame * DataFrame)
}.

#[global] Instance stub_model : RegressionModel.t nat Stub :=
  {| RegressionModel.input_dimension_names := dimensions;
     RegressionModel.should_fit := fun tree n => min_samples_to_fit tree <? n;
     RegressionModel.fit := fun tree st features targets =>
       (mkStub (dimensions tree) (min_samples_to_fit tree) (answer tree)
               (fitted_with tree ++ [(features, targets)]), st, Ok tt);
     RegressionModel.predict := fun tree X => Ok (map (fun _ => answer tree) (rows X)) |}.

Definition identity : HypergridAdapter :=
  mkHypergridAdapter (fun df => Ok df).

Definition all_samples : Config := mkConfig 3 1 1.

(** Three members over ["x"]: two valid answers and an invalid one. *)
Definition forest : HomogeneousRandomForestRegressionModel.t Stub :=
  HomogeneousRandomForestRegressionModel.mk all_samples identity identity ["y"]
    [mkStub ["x"] 0 (Prediction.make "y" 1 0 4) [];
     mkStub ["x"] 0 (Prediction.make "y" 3 1 4) [];
     mkStub ["x"] 0 (Prediction.invalid "y") []].

Definition one_column (name : string) (values : list (nat * Cell)) : DataFrame :=
  {| columns := [name];
     rows := map (fun lv : nat * Cell =>
                    (fst lv, fun c => if String.eqb c name then snd lv else None)) values |}.

(** Two observations; the feature of the first one is missing. *)
Definition features : DataFrame :=
  one_column "x" [(0, None); (1, Some (Num 1))].

Definition targets : DataFrame :=
  one_column "y" [(0, Some (Num 10)); (1, Some (Num 11))].

Definition queries : DataFrame :=
  one_column "x" [(0, Some (Num 1)); (1, Some (Num 2))].


(** What [nth] falls back on. *)
Definition no_event : FitEvent := mkFitEvent 0 [] None.

(** The members of [forest], last one first. *)
Definition last_first : list (nat * Stub) :=
  rev (enumerate (_decision_trees forest)).

Definition single : HomogeneousRandomForestRegressionModel.t Stub :=
  HomogeneousRandomForestRegressionModel.mk all_samples identity identity ["y"]
    [mkStub ["x"] 0 (Prediction.invalid "y") []].

End ForestExamples.

Module ForestExtraExamples.
Import Pandas.
Import HomogeneousRandomForestRegressionModel.
Import ForestExamples.







(** A member that answers with no prediction at all. *)
Record Terse : Type := mkTerse { terse_dimensions : list string }.

#[global] Instance terse_model : RegressionModel.t nat Terse :=
  {| RegressionModel.input_dimension_names := terse_dimensions;
     RegressionModel.should_fit := fun _ _ => false;
     RegressionModel.fit := fun tree st _ _ => (tree, st, Ok tt);
     RegressionModel.predict := fun _ _ => Ok [] |}.

Definition terse : HomogeneousRandomForestRegressionModel.t Terse :=
  HomogeneousRandomForestRegressionModel.mk all_samples identity identity ["y"]
    [mkTerse ["x"]].

Definition no_frame : DataFrame := {| columns := []; rows := [] |}.

(** What the one member of [single] was fitted on, for features of which
    the first is missing and for features that are all there. *)
Definition first_event (feature_values : DataFrame) : FitEvent :=
  nth 0 (events (fit single 0 feature_values targets)) no_event.

Definition given (feature_values : DataFrame) : DataFrame * DataFrame :=
  match fitted_on (first_event feature_values) with
  | Some frames => frames
  | None => (no_frame, no_frame)
  end.

(** The first event of a second [fit], from another state of the
    generator. *)
Definition second_event : FitEvent :=
  nth 0 (events (fit (fitted (fit single 0 queries targets)) 5 queries targets)) no_event.

End ForestExtraExamples.

Module OptimizerExtraExamples.
Import Pandas Optimizers OptimizerExamples OptimizerFactory.


(** A session whose first registration carries a context. *)
Definition context_session : list Call :=
  [CallRegister (configs [(0, 1%Q)]) [(0, 5%Q)] (Some (configs [(0, 7%Q)]));
   CallSuggest None;
   CallRegister (configs [(0, 2%Q)]) [(0, 3%Q)] None].

(** An optimizer with an adapter that changes nothing. *)
Definition adapting : BaseOptimizer string unit :=
  mkOptimizer "space" "target" (Some (identity_adapter "space" "target")) [] [] tt.

(** Classes for the factory: an adapter class that needs no argument, and
    an optimizer class that is [BaseOptimizer] itself. *)
Definition adapter_class (adapter_type : unit) (parameter_space : string)
           (kwargs : list (string * Q)) : result (BaseSpaceAdapter string) :=
  Ok (identity_adapter parameter_space "target").

Definition base_class (optimizer_type : OptimizerType) (parameter_space : string)
           (space_adapter : option (BaseSpaceAdapter string)) (kwargs : list (string * Q))
  : result (BaseOptimizer string unit) :=
  __init__ string_dec parameter_space space_adapter tt.

End OptimizerExtraExamples.

Module ConstructionExamples.
Import Pandas.
Import HomogeneousRandomForestRegressionModel.
Import ForestExamples ForestConstruction.

(** A space is the list of its dimensions; a point of it has a value for
    every dimension. *)
Definition Grid : Type := list (Dimension unit).

Definition every_dimension (space : Grid) (st : nat) : list (string * Value) * nat :=
  (map (fun d => (name d, Num 0)) space, S st).

Definition dimension_named (space : Grid) (n : string) : result (Dimension unit) :=
  match find (fun d => String.eqb (name d) n) space with
  | Some d => Ok d
  | None => Raise (KeyError n)
  end.

(** The first [k] names of the population. *)
Definition first_names (st : nat) (population : list string) (k : Z)
  : result (list string) * nat :=
  if ((0 <=? k) && (k <=? Z.of_nat (List.length population)))%Z
  then (Ok (firstn (Z.to_nat k) population), S st)
  else (Raise (ValueError "Sample larger than population or is negative"), st).

Definition flat (n : string) : string := "flat_" ++ n.

Definition stub_tree (model_config : Config) (input_space output_space : SimpleHypergrid unit)
  : result Stub :=
  Ok (mkStub (map name (dimensions input_space)) 0 (Prediction.invalid "y") []).

Definition inputs : Grid := [mkDimension "a" tt; mkDimension "b" tt; mkDimension "c" tt].
Definition output : Grid := [mkDimension "y" tt].
Definition two_outputs : Grid := [mkDimension "y" tt; mkDimension "z" tt].

(** Two estimators, two thirds of the features each. *)
Definition two_thirds : Config := mkConfig 2 (2 # 3) 1.

#[global] Instance grids : Environment unit Grid nat Stub :=
  {| hypergrid_dimensions := fun space => space;
     hypergrid_random := every_dimension;
     hypergrid_getitem := dimension_named;
     flatten_dimension_name := flat;
     random_random := S;
     random_sample := first_names;
     adapter_of := fun _ => identity;
     adapter_dimensions := fun space => space;
     new_tree := stub_tree |}.

Definition construct (output_space : Grid)
  : built (HomogeneousRandomForestRegressionModel.t Stub) * nat :=
  __init__ two_thirds inputs output_space 0.

End ConstructionExamples.

(** * Properties of the pandas model *)

Module PandasFacts.
Import Pandas.

Lemma labels_eqb_refl (l : list nat) : labels_eqb l l = true.
Proof.
  induction l as [|x l IH]; simpl; [reflexivity|].
  now rewrite Nat.eqb_refl, IH.
Qed.

Lemma drop_none_map_Some {A B : Type} (f : A -> B) (l : list A) :
  drop_none (map (fun a => Some (f a)) l) = map f l.
Proof.
  induction l as [|a l IH]; simpl; [reflexivity|now rewrite IH].
Qed.

Lemma drop_none_all_None {A B : Type} (f : A -> option B) (l : list A) :
  Forall (fun a => f a = None) l -> drop_none (map f l) = [].
Proof.
  induction 1 as [|a l Ha _ IH]; simpl; [reflexivity|].
  now rewrite Ha.
Qed.

Lemma zip_with_app {A B C : Type} (f : A -> B -> C) (l1 l2 : list A) (m1 m2 : list B) :
  List.length l1 = List.length m1 ->
  zip_with f (l1 ++ l2) (m1 ++ m2) = zip_with f l1 m1 ++ zip_with f l2 m2.
Proof.
  revert m1; induction l1 as [|a l1 IH]; intros [|b m1] Hlen; simpl in *; try discriminate.
  - reflexivity.
  - f_equal. apply IH. now injection Hlen.
Qed.

Lemma zip_with_map_l {A A' B C : Type} (f : A' -> B -> C) (g : A -> A') (l : list A) (m : list B) :
  zip_with f (map g l) m = zip_with (fun a b => f (g a) b) l m.
Proof.
  revert m; induction l as [|a l IH]; intros [|b m]; simpl; try reflexivity.
  now rewrite IH.
Qed.

Lemma zip_with_length {A B C : Type} (f : A -> B -> C) (l : list A) (m : list B) :
  List.length l = List.length m -> List.length (zip_with f l m) = List.length l.
Proof.
  revert m; induction l as [|a l IH]; intros [|b m] Hlen; simpl in *; try discriminate.
  - reflexivity.
  - f_equal. apply IH. now injection Hlen.
Qed.








End PandasFacts.

(** * Properties of [BaseOptimizer] *)

Module OptimizerFacts.
Import Pandas PandasFacts Optimizers.

Lemma concat_frames {A : Type} (f : A -> DataFrame) (l : list A) :
  l <> [] ->
  concat (map (fun a => Some (f a)) l) =
  Ok {| columns := fold_left union_columns (map (fun a => columns (f a)) l) [];
        rows := flat_map (fun a => map (restrict (columns (f a))) (rows (f a))) l |}.
Proof.
  intros Hne. unfold concat.
  rewrite drop_none_map_Some.
  assert (Hcols : map columns (map f l) = map (fun a => columns (f a)) l)
    by apply map_map.
  assert (Hrows : flat_map (fun df => map (restrict (columns df)) (rows df)) (map f l) =
                  flat_map (fun a => map (restrict (columns (f a))) (rows (f a))) l).
  { clear. induction l as [|a l IH]; simpl; [reflexivity|now rewrite IH]. }
  rewrite <- Hcols, <- Hrows.
  destruct l as [|a l]; [congruence|]. reflexivity.
Qed.

Lemma concat_no_frame {A : Type} (f : A -> option DataFrame) (l : list A) :
  l <> [] ->
  Forall (fun a => f a = None) l ->
  concat (map f l) = Raise (ValueError "All objects passed were None").
Proof.
  intros Hne Hall. unfold concat.
  rewrite (drop_none_all_None f l Hall).
  destruct l; [congruence|reflexivity].
Qed.

Lemma concat_series_map {A : Type} (f : A -> Series) (l : list A) :
  l <> [] -> concat_series (map f l) = Ok (List.concat (map f l)).
Proof.
  destruct l; [congruence|reflexivity].
Qed.

Lemma aligned_length (o : Observation) :
  aligned o -> List.length (rows (fst (fst o))) = List.length (snd (fst o)).
Proof.
  intros [Hidx _]. unfold index in Hidx.
  apply (f_equal (@List.length nat)) in Hidx. now rewrite !length_map in Hidx.
Qed.

Lemma aligned_index (obs : list Observation) :
  Forall aligned obs ->
  map fst (flat_map (fun o : Observation =>
                       map (restrict (columns (fst (fst o)))) (rows (fst (fst o)))) obs) =
  map fst (List.concat (map (fun o : Observation => snd (fst o)) obs)).
Proof.
  induction 1 as [|o obs Ho _ IH]; cbn [flat_map map List.concat]; [reflexivity|].
  rewrite !map_app. f_equal; [|exact IH].
  rewrite map_map. cbn [restrict fst]. apply Ho.
Qed.

Lemma aligned_rows (obs : list Observation) :
  Forall aligned obs ->
  zip_with (fun r (lv : nat * Q) => set_cell "score" (Some (Num (snd lv))) r)
           (flat_map (fun o : Observation =>
                        map (restrict (columns (fst (fst o)))) (rows (fst (fst o)))) obs)
           (List.concat (map (fun o : Observation => snd (fst o)) obs)) =
  flat_map observation_rows obs.
Proof.
  induction 1 as [|o obs Ho _ IH]; cbn [flat_map map List.concat]; [reflexivity|].
  rewrite zip_with_app.
  - rewrite IH. f_equal. unfold observation_rows. now rewrite zip_with_map_l.
  - rewrite length_map. now apply aligned_length.
Qed.

Section Facts.

Context {Space Model : Type}.
Implicit Types self : BaseOptimizer Space Model.

(** With aligned scores and no context, [get_observations] is the table
    of the registered rows, in the order of the history. *)
Lemma get_observations_aligned self :
  _observations self <> [] ->
  Forall aligned (_observations self) ->
  get_observations self =
  Ok {| columns := table_columns (_observations self);
        rows := flat_map observation_rows (_observations self) |}.
Proof.
  intros Hne Hall. unfold get_observations.
  destruct (Nat.eqb_spec (List.length (_observations self)) 0) as [Hlen|_].
  { apply length_zero_iff_nil in Hlen. congruence. }
  rewrite (concat_frames (fun o : Observation => fst (fst o))) by assumption.
  rewrite concat_series_map by assumption.
  rewrite concat_no_frame; [|assumption|].
  2:{ eapply Forall_impl; [|exact Hall]. intros o [_ Hctx]. exact Hctx. }
  cbn [bind]. unfold setitem, index. cbn [rows columns].
  rewrite (aligned_index _ Hall), labels_eqb_refl.
  rewrite (aligned_rows _ Hall). reflexivity.
Qed.





Lemma observation_rows_length (o : Observation) :
  aligned o -> List.length (observation_rows o) = len (fst (fst o)).
Proof.
  intros Ho. unfold observation_rows, len.
  apply zip_with_length. now apply aligned_length.
Qed.

End Facts.

End OptimizerFacts.

(** * The claims about [BaseOptimizer] *)

Module OptimizerClaims.
Import Pandas PandasFacts Optimizers OptimizerFacts OptimizerExamples.

Section Claims.

Context {Space Model : Type}.
Variable Space_eq_dec : forall a b : Space, {a = b} + {a <> b}.
Variable impl : Subclass Model.
Implicit Types self : BaseOptimizer Space Model.

Lemma register_history self configurations scores context :
  _observations (fst (register impl self configurations scores context)) =
  _observations self ++ [(configurations, scores, context)].
Proof.
  unfold register. cbn [with_observations _space_adapter model].
  destruct (match _space_adapter self with
            | Some a => inverse_transform a configurations
            | None => Ok configurations
            end) as [c|e]; [|reflexivity].
  destruct (_register impl (model self) c scores context) as [m r]. reflexivity.
Qed.

Lemma register_outcome self configurations scores context :
  snd (register impl self configurations scores context) =
  bind (adapted self configurations)
       (fun c => snd (_register impl (model self) c scores context)).
Proof.
  unfold register, adapted. cbn [with_observations _space_adapter model].
  destruct (match _space_adapter self with
            | Some a => inverse_transform a configurations
            | None => Ok configurations
            end) as [c|e]; [|reflexivity].
  cbn [bind]. destruct (_register impl (model self) c scores context) as [m r]. reflexivity.
Qed.

Lemma suggest_history self context :
  _observations (fst (suggest impl self context)) = _observations self.
Proof.
  unfold suggest. destruct (_suggest impl (model self) context) as [m [c|e]];
    [|reflexivity].
  cbn [with_model _space_adapter]. destruct (_space_adapter self); reflexivity.
Qed.

Lemma register_pending_history self configurations context :
  _observations (fst (register_pending impl self configurations context)) =
  _observations self.
Proof.
  unfold register_pending.
  destruct (_register_pending impl (model self) (_pending_observations self)
                              configurations context) as [[m p] r].
  reflexivity.
Qed.

Lemma run_history (calls : list Call) : forall self,
  _observations (run impl self calls) = _observations self ++ registered calls.
Proof.
  induction calls as [|c calls IH]; intros self; cbn [run fold_left registered].
  - now rewrite app_nil_r.
  - fold (run impl (step impl self c) calls). rewrite IH.
    destruct c as [configurations scores context|context|configurations context];
      cbn [step registered].
    + rewrite register_history, <- app_assoc. reflexivity.
    + now rewrite suggest_history.
    + now rewrite register_pending_history.
Qed.

Lemma single_rows_length (obs : list Observation) :
  Forall aligned obs ->
  Forall (fun o : Observation => len (fst (fst o)) = 1) obs ->
  List.length (flat_map observation_rows obs) = List.length obs.
Proof.
  induction 1 as [|o obs Ho _ IH]; intros Hone; [reflexivity|].
  inversion Hone as [|? ? H1 Hrest]; subst.
  cbn [flat_map List.length]. rewrite length_app, IH by assumption.
  rewrite (observation_rows_length o Ho), H1.
  reflexivity.
Qed.


(** C5, amended.  [register] makes no check of its own: it succeeds
    whenever the inverse transform of the adapter (when there is one) and
    the [_register] of the concrete optimizer succeed -- whatever the row
    counts and the context -- and when it fails, the exception is the one
    raised by one of the two. *)
Theorem register_checks_nothing self configurations scores context :
  (forall c u, adapted self configurations = Ok c ->
               snd (_register impl (model self) c scores context) = Ok u ->
               snd (register impl self configurations scores context) = Ok u) /\
  (forall e, snd (register impl self configurations scores context) = Raise e ->
             adapted self configurations = Raise e \/
             exists c, adapted self configurations = Ok c /\
                       snd (_register impl (model self) c scores context) = Raise e).
Proof.
  rewrite register_outcome. split.
  - intros c u Hc Hu. now rewrite Hc.
  - intros e He. destruct (adapted self configurations) as [c|e'].
    + right. exists c. split; [reflexivity|exact He].
    + left. cbn [bind] in He. now injection He as ->.
Qed.

(** C10.  [register] is not atomic: when the inverse transform of the
    adapter or the [_register] of the concrete optimizer raises, [register]
    raises the same exception and the observation is in the history all
    the same, where [get_observations] finds it. *)
Theorem register_not_atomic self configurations scores context e :
  adapted self configurations = Raise e \/
  (exists c, adapted self configurations = Ok c /\
             snd (_register impl (model self) c scores context) = Raise e) ->
  snd (register impl self configurations scores context) = Raise e /\
  _observations (fst (register impl self configurations scores context)) =
    _observations self ++ [(configurations, scores, context)] /\
  (Forall aligned (_observations self) ->
   aligned (configurations, scores, context) ->
   exists table,
     get_observations (fst (register impl self configurations scores context)) = Ok table /\
     rows table = flat_map observation_rows (_observations self)
                  ++ observation_rows (configurations, scores, context)).
Proof.
  intros Hraise. split; [|split].
  - rewrite register_outcome.
    destruct Hraise as [Ha|(c & Ha & Hr)]; rewrite Ha; [reflexivity|exact Hr].
  - apply register_history.
  - intros Hold Hnew.
    rewrite get_observations_aligned; rewrite register_history.
    + eexists. split; [reflexivity|]. cbn [rows].
      rewrite flat_map_app. cbn [flat_map]. now rewrite app_nil_r.
    + intros Happ. apply app_eq_nil in Happ. destruct Happ; discriminate.
    + apply Forall_app. split; [assumption|]. constructor; [assumption|constructor].
Qed.

(** C8.  Construction fails with a [ValueError] when an adapter is given
    whose original space is not the parameter space; when it succeeds,
    [optimizer_parameter_space] is the target space of the adapter, or
    the parameter space itself when there is no adapter. *)
Theorem init_checks_adapter_space (parameter_space0 : Space)
        (space_adapter : option (BaseSpaceAdapter Space)) (m0 : Model) :
  (forall a, space_adapter = Some a ->
             orig_parameter_space a <> parameter_space0 ->
             __init__ Space_eq_dec parameter_space0 space_adapter m0 =
             Raise (ValueError "Given parameter space differs from the one given to space adapter")) /\
  (forall self, __init__ Space_eq_dec parameter_space0 space_adapter m0 = Ok self ->
                parameter_space self = parameter_space0 /\
                optimizer_parameter_space self =
                match space_adapter with
                | Some a => target_parameter_space a
                | None => parameter_space0
                end).
Proof.
  unfold __init__. split.
  - intros a -> Hne.
    destruct (Space_eq_dec (orig_parameter_space a) parameter_space0); [contradiction|reflexivity].
  - intros self Hok. destruct space_adapter as [a|].
    + destruct (Space_eq_dec (orig_parameter_space a) parameter_space0); [|discriminate].
      injection Hok as <-. split; reflexivity.
    + injection Hok as <-. split; reflexivity.
Qed.

(** C7, amended.  Each call of [register] appends what it was given as
    one entry of the history, in call order, whatever is called in
    between and whatever the outcomes; nothing else touches the history.
    When the scores are aligned with the configurations and no context
    was given, [get_observations] returns the registered rows in call
    order: one row per configuration, hence [k] rows for [k] calls that
    each register one configuration. *)
Theorem register_append_only self (calls : list Call) :
  _observations (run impl self calls) = _observations self ++ registered calls /\
  (_observations self = [] ->
   registered calls <> [] ->
   Forall aligned (registered calls) ->
   exists table,
     get_observations (run impl self calls) = Ok table /\
     rows table = flat_map observation_rows (registered calls) /\
     (Forall (fun o : Observation => len (fst (fst o)) = 1) (registered calls) ->
      len table = List.length (registered calls))).
Proof.
  split; [apply run_history|].
  intros Hnil Hne Hal.
  assert (Hobs : _observations (run impl self calls) = registered calls)
    by (rewrite run_history, Hnil; reflexivity).
  rewrite get_observations_aligned; rewrite Hobs; try assumption.
  eexists. split; [reflexivity|]. cbn [rows]. split; [reflexivity|].
  intros Hone. unfold len. cbn [rows]. now apply single_rows_length.
Qed.


End Claims.

(** *** The claims at concrete inputs *)

Ltac aligned_history :=
  repeat (constructor; [split; reflexivity|]); constructor.

Lemma register_checks_nothing_witness :
  snd (register accept_all fresh (configs [(0, 1%Q)]) [(0, 5%Q)] None) = Ok tt.
Proof.
  apply (proj1 (register_checks_nothing accept_all fresh (configs [(0, 1%Q)])
                                        [(0, 5%Q)] None)
               (configs [(0, 1%Q)]) tt); reflexivity.
Defined.

(** C5 as stated fails: two configurations with one score are registered
    without complaint, and so is an observation with a context. *)
Lemma register_accepts_mismatch_and_context :
  len (configs [(0, 1%Q); (1, 2%Q)]) <> List.length [(0, 5%Q)] /\
  snd (register accept_all fresh (configs [(0, 1%Q); (1, 2%Q)]) [(0, 5%Q)] None) = Ok tt /\
  snd (register accept_all fresh (configs [(0, 1%Q)]) [(0, 5%Q)]
                (Some (configs [(0, 7%Q)]))) = Ok tt.
Proof.
  split; [|split]; [|reflexivity|reflexivity].
  vm_compute. discriminate.
Qed.

Lemma register_not_atomic_witness :
  snd (register broken_model fresh (configs [(0, 1%Q)]) [(0, 5%Q)] None) =
    Raise (CollaboratorError "model update failed") /\
  _observations (fst (register broken_model fresh (configs [(0, 1%Q)]) [(0, 5%Q)] None)) =
    [(configs [(0, 1%Q)], [(0, 5%Q)], None)] /\
  exists table,
    get_observations (fst (register broken_model fresh (configs [(0, 1%Q)]) [(0, 5%Q)] None)) =
      Ok table /\
    rows table = observation_rows (configs [(0, 1%Q)], [(0, 5%Q)], None).
Proof.
  destruct (register_not_atomic broken_model fresh (configs [(0, 1%Q)]) [(0, 5%Q)] None
                                (CollaboratorError "model update failed"))
    as (Hraise & Hhist & Htable).
  - right. exists (configs [(0, 1%Q)]). split; reflexivity.
  - split; [exact Hraise|]. split; [exact Hhist|].
    apply Htable; [constructor|split; reflexivity].
Defined.

Lemma init_checks_adapter_space_witness :
  __init__ string_dec "space" (Some (identity_adapter "other" "target")) tt =
    Raise (ValueError "Given parameter space differs from the one given to space adapter") /\
  optimizer_parameter_space
    (mkOptimizer "space" "target" (Some (identity_adapter "space" "target")) [] [] tt) =
    "target".
Proof.
  split.
  - apply (proj1 (init_checks_adapter_space string_dec "space"
                    (Some (identity_adapter "other" "target")) tt)
                 (identity_adapter "other" "target")); [reflexivity|discriminate].
  - apply (proj2 (init_checks_adapter_space string_dec "space"
                    (Some (identity_adapter "space" "target")) tt)
                 (mkOptimizer "space" "target" (Some (identity_adapter "space" "target"))
                              [] [] tt)).
    reflexivity.
Defined.

Lemma register_append_only_witness :
  exists table,
    get_observations (run accept_all fresh session) = Ok table /\
    rows table = flat_map observation_rows (registered session) /\
    len table = 2.
Proof.
  destruct (proj2 (register_append_only accept_all fresh session))
    as (table & Hget & Hrows & Hlen).
  - reflexivity.
  - discriminate.
  - aligned_history.
  - exists table. split; [exact Hget|]. split; [exact Hrows|].
    apply Hlen. repeat constructor.
Defined.

(** C7 as stated fails: one call of [register] with two configurations
    gives two rows. *)
Lemma one_call_two_rows :
  List.length (registered [CallRegister (configs [(0, 1%Q); (1, 2%Q)])
                                        [(0, 5%Q); (1, 6%Q)] None]) = 1 /\
  exists table,
    get_observations
      (run accept_all fresh
           [CallRegister (configs [(0, 1%Q); (1, 2%Q)]) [(0, 5%Q); (1, 6%Q)] None]) =
      Ok table /\
    len table = 2.
Proof.
  split; [reflexivity|]. eexists. split; reflexivity.
Qed.



End OptimizerClaims.

(** * Properties of the forest *)

Module ForestFacts.
Import Pandas.
Import HomogeneousRandomForestRegressionModel.

Lemma mapM_Forall2 {A B : Type} (f : A -> result B) (l : list A) (out : list B) :
  mapM f l = Ok out <-> Forall2 (fun a b => f a = Ok b) l out.
Proof.
  revert out; induction l as [|a l IH]; intros out; simpl.
  - split.
    + intros Hok. injection Hok as <-. constructor.
    + intros Hall. inversion Hall. reflexivity.
  - split.
    + destruct (f a) as [b|e] eqn:Hfa; [|discriminate].
      destruct (mapM f l) as [bs|e] eqn:Hrest; [|discriminate].
      intros Hok. injection Hok as <-. constructor; [assumption|]. now apply IH.
    + intros Hall. inversion Hall as [|? b ? bs Hfa Hrest]; subst.
      rewrite Hfa. apply IH in Hrest. now rewrite Hrest.
Qed.

Lemma mapM_total {A B : Type} (f : A -> result B) (l : list A) :
  Forall (fun a => exists b, f a = Ok b) l -> exists out, mapM f l = Ok out.
Proof.
  induction 1 as [|a l (b & Hb) _ (bs & Hbs)]; simpl.
  - now exists [].
  - rewrite Hb, Hbs. now exists (b :: bs).
Qed.

Lemma filter_idempotent {A : Type} (f : A -> bool) (l : list A) :
  filter f (filter f l) = filter f l.
Proof.
  induction l as [|a l IH]; simpl; [reflexivity|].
  destruct (f a) eqn:Hfa; simpl; [rewrite Hfa, IH|]; auto.
Qed.

Lemma filter_all {A : Type} (l : list A) : filter (fun _ => true) l = l.
Proof.
  induction l as [|a l IH]; simpl; [reflexivity|now rewrite IH].
Qed.

(** The valid predictions of well-formed members have means and variances,
    which [predict] reads off one by one. *)
Lemma moments_of_valid (l : list Prediction.t) :
  Forall well_formed l ->
  exists means variances,
    map Prediction.mean (filter Prediction.valid l) = map Some means /\
    map Prediction.variance (filter Prediction.valid l) = map Some variances /\
    mapM mean_of (filter Prediction.valid l) = Ok means /\
    mapM second_moment_of (filter Prediction.valid l) =
      Ok (second_moments variances means).
Proof.
  induction 1 as [|p l Hp _ (ms & vs & Hm & Hv & Hmean & Hsecond)]; simpl.
  - exists [], []. repeat split; reflexivity.
  - destruct (Prediction.valid p) eqn:Hvalid.
    + destruct (Hp Hvalid) as (m & v & Hpm & Hpv).
      exists (m :: ms), (v :: vs). cbn [map mapM filter second_moments zip_with].
      unfold mean_of at 1. unfold second_moment_of at 1.
      rewrite Hpm, Hpv, Hm, Hv, Hmean, Hsecond. repeat split; reflexivity.
    + exists ms, vs. repeat split; assumption.
Qed.

Section Predict.

Context {State M : Type} `{RegressionModel.t State M}.
Implicit Types self : HomogeneousRandomForestRegressionModel.t M.

(** The body of the loop of [predict] on the predictions of well-formed
    members. *)
Lemma aggregate_row self (observation_predictions : list Prediction.t) (target : string) :
  target_dimension_names self = [target] ->
  Forall well_formed observation_predictions ->
  exists means variances,
    map Prediction.mean (filter Prediction.valid observation_predictions) = map Some means /\
    map Prediction.variance (filter Prediction.valid observation_predictions) =
      map Some variances /\
    aggregate self observation_predictions =
    Ok (match filter Prediction.valid observation_predictions with
        | [] => Prediction.invalid target
        | first :: _ =>
            Prediction.make (Prediction.target_name first) (Numpy.mean means)
              (Numpy.mean (second_moments variances means) - Numpy.mean means ^ 2)%Q
              (List.length (filter Prediction.valid observation_predictions))
        end).
Proof.
  intros Htarget Hwf.
  destruct (moments_of_valid observation_predictions Hwf)
    as (ms & vs & Hm & Hv & Hmean & Hsecond).
  exists ms, vs. split; [exact Hm|]. split; [exact Hv|].
  unfold aggregate. rewrite filter_idempotent, filter_all, Hmean, Hsecond.
  destruct (filter Prediction.valid observation_predictions) as [|first rest] eqn:Hvalid.
  - cbn. now rewrite Htarget.
  - assert (Hfirst : Prediction.valid first = true).
    { assert (Hin : In first (filter Prediction.valid observation_predictions))
        by (rewrite Hvalid; now left).
      apply filter_In in Hin. tauto. }
    cbn [is_empty existsb orb negb]. rewrite Hfirst. reflexivity.
Qed.

Lemma predictions_for_unique (i : nat) (predictions : list (list Prediction.t))
      (a b : list Prediction.t) :
  predictions_for i predictions a ->
  predictions_for i predictions b ->
  a = b.
Proof.
  unfold predictions_for. intros Ha. revert b.
  induction Ha as [|ps p predictions a Hp _ IH]; intros b Hb; inversion Hb; subst.
  - reflexivity.
  - f_equal; [congruence|]. now apply IH.
Qed.

Lemma predictions_at_row (i n : nat) (predictions : list (list Prediction.t)) :
  i < n ->
  Forall (fun ps => List.length ps = n) predictions ->
  Forall (Forall well_formed) predictions ->
  exists observation_predictions,
    mapM (prediction_at i) predictions = Ok observation_predictions /\
    predictions_for i predictions observation_predictions /\
    Forall well_formed observation_predictions.
Proof.
  intros Hi Hlen. induction Hlen as [|ps predictions Hps _ IH]; intros Hwf.
  - exists []. repeat split; constructor.
  - inversion Hwf as [|? ? Hwf1 Hwf2]; subst.
    destruct (IH Hwf2) as (rest & Hrest & Hfor & Hall).
    destruct (nth_error ps i) as [p|] eqn:Hp.
    + exists (p :: rest). cbn [mapM]. unfold prediction_at at 1.
      rewrite Hp, Hrest. split; [reflexivity|]. split.
      * constructor; assumption.
      * constructor; [|assumption].
        apply nth_error_In in Hp. rewrite Forall_forall in Hwf1. now apply Hwf1.
    + apply nth_error_None in Hp. lia.
Qed.

(** [predict] returns, row by row, what [aggregate] makes of the members'
    predictions for the row. *)
Lemma predict_rows self (features X : DataFrame) (predictions : list (list Prediction.t))
      (target : string) :
  translate_dataframe (_input_space_adapter self) features = Ok X ->
  mapM (fun estimator => RegressionModel.predict estimator X) (_decision_trees self) =
    Ok predictions ->
  Forall (fun ps => List.length ps = len X) predictions ->
  Forall (Forall well_formed) predictions ->
  target_dimension_names self = [target] ->
  exists out,
    predict self features = Ok out /\
    Forall2 (fun i p =>
               exists observation_predictions,
                 predictions_for i predictions observation_predictions /\
                 Forall well_formed observation_predictions /\
                 aggregate self observation_predictions = Ok p)
            (seq 0 (len X)) out.
Proof.
  intros HX Hpredictions Hlen Hwf Htarget.
  unfold predict. rewrite HX. cbn [bind]. rewrite Hpredictions. cbn [bind].
  set (row := fun observation_id : nat =>
                bind (mapM (prediction_at observation_id) predictions)
                     (fun observation_predictions =>
                        aggregate self observation_predictions)).
  assert (Hrow : forall i, i < len X ->
            exists p observation_predictions,
              row i = Ok p /\
              predictions_for i predictions observation_predictions /\
              Forall well_formed observation_predictions /\
              aggregate self observation_predictions = Ok p).
  { intros i Hi.
    destruct (predictions_at_row i (len X) predictions Hi Hlen Hwf)
      as (ops & Hops & Hfor & Hall).
    destruct (aggregate_row self ops target Htarget Hall) as (ms & vs & _ & _ & Hagg).
    eexists. exists ops. unfold row. rewrite Hops. cbn [bind].
    split; [exact Hagg|]. split; [assumption|]. split; [assumption|exact Hagg]. }
  destruct (mapM_total row (seq 0 (len X))) as (out & Hout).
  { apply Forall_forall. intros i Hi. apply in_seq in Hi.
    destruct (Hrow i) as (p & _ & Hp & _); [lia|]. now exists p. }
  exists out. split; [exact Hout|].
  apply mapM_Forall2 in Hout.
  assert (Hin : Forall (fun i => i < len X) (seq 0 (len X))).
  { apply Forall_forall. intros i Hi. apply in_seq in Hi. lia. }
  revert Hin. induction Hout as [|i p l out' Hip _ IH]; intros Hin; constructor.
  - inversion Hin as [|? ? Hi _]; subst.
    destruct (Hrow i Hi) as (p' & ops & Hp' & Hfor & Hall & Hagg).
    exists ops. split; [assumption|]. split; [assumption|]. congruence.
  - apply IH. now inversion Hin.
Qed.

Lemma Forall2_nth_error {A B : Type} (R : A -> B -> Prop) (l : list A) (l' : list B) :
  Forall2 R l l' ->
  forall i a, nth_error l i = Some a -> exists b, nth_error l' i = Some b /\ R a b.
Proof.
  induction 1 as [|x y l l' Hxy _ IH]; intros [|i] a Hnth; simpl in *; try discriminate.
  - injection Hnth as <-. now exists y.
  - now apply IH.
Qed.

End Predict.

(** The counting generator keeps the promises of [randint]. *)
#[global] Instance counting_laws : Numpy.RandomLaws nat.
Proof.
  constructor. intros st low high size Hsize Hrange.
  cbn [Numpy.randint ForestExamples.counting]. unfold ForestExamples.counting_randint.
  destruct (Z.ltb_spec size 0) as [Hneg|_]; [lia|].
  destruct (Z.eqb_spec size 0) as [->|Hpos].
  - exists [], st. repeat split. constructor.
  - destruct Hrange as [Hzero|Hlt]; [contradiction|].
    destruct (Nat.leb_spec high low) as [Hle|_]; [lia|].
    eexists. eexists. split; [reflexivity|]. split.
    + rewrite length_map, length_seq. lia.
    + apply Forall_forall. intros i Hi. apply in_map_iff in Hi.
      destruct Hi as (j & <- & _).
      pose proof (Nat.mod_upper_bound (st + j) (high - low)). lia.
Qed.

(** *** The loop of [fit] *)

Section Fit.

Context {State M : Type}.
Context `{Numpy.Random State} `{RegressionModel.t State M}.

(** Whatever the state of the generator when the loop reaches member
    [i], the indices drawn for it are those of [selection]. *)
Lemma fit_estimator_event (X Y : DataFrame) (k : Z) (st : State) (i : nat) (tree : M)
      (tree' : M) (st' : State) (log : list FitEvent) (r : result unit) :
  fit_estimator X Y k st i tree = (tree', st', log, r) ->
  forall ev, In ev log ->
    estimator_index ev = i /\
    selection i (RegressionModel.input_dimension_names tree) X k =
      Ok (selected_observation_ids ev).
Proof.
  unfold fit_estimator, selection.
  destruct (select_columns (RegressionModel.input_dimension_names tree) X) as [df|e].
  2:{ intros Heq. injection Heq as <- <- <- <-. intros ev []. }
  destruct (Numpy.randint (Numpy.seed i) 0 (len (filter_notnull df))
              (Z.min (Z.of_nat (len (filter_notnull df))) k)) as [[ids|e] st1].
  2:{ intros Heq. injection Heq as <- <- <- <-. intros ev []. }
  cbn [fst].
  destruct (RegressionModel.should_fit tree (List.length ids)).
  2:{ intros Heq. injection Heq as <- <- <- <-.
      intros ev [<-|[]]. split; reflexivity. }
  destruct (iloc (filter_notnull df) ids) as [features|e].
  2:{ intros Heq. injection Heq as <- <- <- <-.
      intros ev [<-|[]]. split; reflexivity. }
  destruct (iloc Y ids) as [targets|e].
  2:{ intros Heq. injection Heq as <- <- <- <-.
      intros ev [<-|[]]. split; reflexivity. }
  destruct (RegressionModel.fit tree st1 features targets) as [[tree1 st2] r1].
  intros Heq. injection Heq as <- <- <- <-.
  intros ev [<-|[]]. split; reflexivity.
Qed.

Lemma fit_estimator_ok (X Y : DataFrame) (k : Z) (st : State) (i : nat) (tree : M)
      (tree' : M) (st' : State) (log : list FitEvent) (u : unit) :
  fit_estimator X Y k st i tree = (tree', st', log, Ok u) ->
  exists ev, log = [ev] /\ estimator_index ev = i.
Proof.
  unfold fit_estimator.
  destruct (select_columns (RegressionModel.input_dimension_names tree) X) as [df|e];
    [|discriminate].
  destruct (Numpy.randint (Numpy.seed i) 0 (len (filter_notnull df))
              (Z.min (Z.of_nat (len (filter_notnull df))) k)) as [[ids|e] st1];
    [|discriminate].
  destruct (RegressionModel.should_fit tree (List.length ids)).
  2:{ intros Heq. injection Heq as <- <- <- <-. eexists. split; reflexivity. }
  destruct (iloc (filter_notnull df) ids) as [features|e]; [|discriminate].
  destruct (iloc Y ids) as [targets|e]; [|discriminate].
  destruct (RegressionModel.fit tree st1 features targets) as [[tree1 st2] r1].
  intros Heq. injection Heq as <- <- <- _. eexists. split; reflexivity.
Qed.

Lemma fit_estimators_events (X Y : DataFrame) (k : Z) (pairs : list (nat * M)) :
  forall (st : State) pairs' st' log r,
    fit_estimators X Y k st pairs = (pairs', st', log, r) ->
    forall ev, In ev log ->
      exists tree,
        In (estimator_index ev, tree) pairs /\
        selection (estimator_index ev)
                         (RegressionModel.input_dimension_names tree) X k =
          Ok (selected_observation_ids ev).
Proof.
  induction pairs as [|[i tree] rest IH]; intros st pairs' st' log r; cbn [fit_estimators].
  - intros Heq. injection Heq as <- <- <- <-. intros ev [].
  - destruct (fit_estimator X Y k st i tree) as [[[tree1 st1] log1] r1] eqn:Hone.
    destruct r1 as [u|e].
    + destruct (fit_estimators X Y k st1 rest) as [[[rest2 st2] log2] r2] eqn:Hrest.
      intros Heq. injection Heq as <- <- <- <-.
      intros ev Hin. apply in_app_or in Hin. destruct Hin as [Hin|Hin].
      * destruct (fit_estimator_event _ _ _ _ _ _ _ _ _ _ Hone ev Hin) as (Hidx & Hsel).
        exists tree. rewrite Hidx. split; [now left|exact Hsel].
      * destruct (IH _ _ _ _ _ Hrest ev Hin) as (tree2 & Hin2 & Hsel).
        exists tree2. split; [now right|exact Hsel].
    + intros Heq. injection Heq as <- <- <- <-.
      intros ev Hin.
      destruct (fit_estimator_event _ _ _ _ _ _ _ _ _ _ Hone ev Hin) as (Hidx & Hsel).
      exists tree. rewrite Hidx. split; [now left|exact Hsel].
Qed.

(** A run of the loop that does not raise has drawn for every member, in
    the order of the loop. *)
Lemma fit_estimators_complete (X Y : DataFrame) (k : Z) (pairs : list (nat * M)) :
  forall (st : State) pairs' st' log u,
    fit_estimators X Y k st pairs = (pairs', st', log, Ok u) ->
    map estimator_index log = map fst pairs.
Proof.
  induction pairs as [|[i tree] rest IH]; intros st pairs' st' log u; cbn [fit_estimators].
  - intros Heq. injection Heq as <- <- <-. reflexivity.
  - destruct (fit_estimator X Y k st i tree) as [[[tree1 st1] log1] r1] eqn:Hone.
    destruct r1 as [u1|e]; [|discriminate].
    destruct (fit_estimators X Y k st1 rest) as [[[rest2 st2] log2] r2] eqn:Hrest.
    intros Heq. injection Heq as <- <- <- ->.
    destruct (fit_estimator_ok _ _ _ _ _ _ _ _ _ _ Hone) as (ev & -> & Hidx).
    cbn [app map fst]. rewrite Hidx. f_equal. eapply IH. exact Hrest.
Qed.


Context `{!Numpy.RandomLaws State}.






Lemma nth_error_combine_seq {A : Type} (l : list A) :
  forall (start j i : nat) (a : A),
    nth_error (combine (seq start (List.length l)) l) j = Some (i, a) <->
    i = start + j /\ nth_error l j = Some a.
Proof.
  induction l as [|x l IH]; intros start j i a; cbn [List.length seq combine].
  - destruct j; cbn [nth_error]; split; try discriminate; intros [_ Hn]; discriminate.
  - destruct j as [|j]; cbn [nth_error].
    + split.
      * intros Heq. injection Heq as <- <-. split; [lia|reflexivity].
      * intros [-> Heq]. injection Heq as <-. now rewrite Nat.add_0_r.
    + rewrite IH. split; intros [-> Hn]; (split; [lia|exact Hn]).
Qed.

Lemma nth_error_enumerate {A : Type} (l : list A) (j i : nat) (a : A) :
  nth_error (enumerate l) j = Some (i, a) <-> i = j /\ nth_error l j = Some a.
Proof.
  unfold enumerate. now rewrite nth_error_combine_seq.
Qed.

Lemma enumerate_snd {A : Type} (l : list A) : map snd (enumerate l) = l.
Proof.
  unfold enumerate. generalize 0 as start.
  induction l as [|x l IH]; intros start; cbn [List.length seq combine map snd];
    [reflexivity|].
  now rewrite IH.
Qed.

End Fit.

(** *** The law of total variance gives a non-negative variance *)

Import Numpy.

Lemma count_cons (x : Q) (l : list Q) : (count (x :: l) == count l + 1)%Q.
Proof.
  unfold count. cbn [List.length].
  rewrite Nat2Z.inj_succ, <- Z.add_1_r, inject_Z_plus. reflexivity.
Qed.

Lemma count_positive (l : list Q) : l <> [] -> (0 < count l)%Q.
Proof.
  intros Hne. unfold count. change 0%Q with (inject_Z 0). rewrite <- Zlt_Qlt.
  destruct l; [congruence|]. cbn [List.length]. lia.
Qed.

Lemma square_nonneg (q : Q) : (0 <= q * q)%Q.
Proof.
  destruct q as [n d]. unfold Qle, Qmult. simpl. nia.
Qed.

Lemma spread_nonneg (x : Q) (l : list Q) :
  (0 <= count l * x ^ 2 - 2 * x * Numpy.sum l + Numpy.sum (map (fun m => m ^ 2) l))%Q.
Proof.
  induction l as [|y l IH].
  - unfold count. cbn [List.length Z.of_nat Numpy.sum map].
    change (inject_Z 0) with 0%Q. lra.
  - rewrite count_cons. cbn [Numpy.sum map].
    pose proof (square_nonneg (x - y)). lra.
Qed.

(** The square of a sum is at most the count times the sum of squares. *)
Lemma sum_squared (l : list Q) :
  (Numpy.sum l ^ 2 <= count l * Numpy.sum (map (fun m => m ^ 2) l))%Q.
Proof.
  induction l as [|x l IH].
  - unfold count. cbn [List.length Z.of_nat Numpy.sum map].
    change (inject_Z 0) with 0%Q. lra.
  - rewrite count_cons. cbn [Numpy.sum map].
    pose proof (spread_nonneg x l). lra.
Qed.

Lemma sum_second_moments (variances means : list Q) :
  List.length variances = List.length means ->
  (Numpy.sum (second_moments variances means) ==
   Numpy.sum variances + Numpy.sum (map (fun m => m ^ 2) means))%Q.
Proof.
  revert means. induction variances as [|v vs IH]; intros [|m ms] Hlen;
    simpl in Hlen; try discriminate.
  - cbn. lra.
  - cbn [second_moments zip_with Numpy.sum map].
    fold (second_moments vs ms). rewrite IH by lia. lra.
Qed.

Lemma second_moments_length (variances means : list Q) :
  List.length variances = List.length means ->
  List.length (second_moments variances means) = List.length means.
Proof.
  revert means. induction variances as [|v vs IH]; intros [|m ms] Hlen;
    simpl in Hlen; try discriminate; [reflexivity|].
  cbn [second_moments zip_with List.length]. f_equal. apply IH. lia.
Qed.

Lemma sum_nonneg (l : list Q) : Forall (fun v => (0 <= v)%Q) l -> (0 <= Numpy.sum l)%Q.
Proof.
  induction 1 as [|v l Hv _ IH]; cbn [Numpy.sum]; lra.
Qed.

Lemma scaled_variance_nonneg (n s t v : Q) :
  (0 < n)%Q -> (s ^ 2 <= n * t)%Q -> (0 <= v)%Q ->
  (0 <= (v + t) / n - (s / n) ^ 2)%Q.
Proof.
  intros Hn Hc Hv.
  assert (Heq : ((v + t) / n - (s / n) ^ 2 ==
                 (n * v + (n * t - s ^ 2)) * ((/ n) * (/ n)))%Q).
  { field. lra. }
  rewrite Heq. apply Qmult_le_0_compat.
  - assert (0 <= n * v)%Q by (apply Qmult_le_0_compat; lra). lra.
  - apply square_nonneg.
Qed.

(** The aggregate variance of [predict], for members whose variances are
    not negative. *)
Lemma total_variance_nonneg (variances means : list Q) :
  List.length variances = List.length means ->
  means <> [] ->
  Forall (fun v => (0 <= v)%Q) variances ->
  (0 <= Numpy.mean (second_moments variances means) - Numpy.mean means ^ 2)%Q.
Proof.
  intros Hlen Hne Hvar. unfold Numpy.mean.
  rewrite second_moments_length by assumption. fold (count means).
  rewrite sum_second_moments by assumption.
  apply scaled_variance_nonneg.
  - now apply count_positive.
  - apply sum_squared.
  - now apply sum_nonneg.
Qed.

End ForestFacts.

(** * The claims about the forest *)

Module ForestClaims.
Import Pandas ForestFacts ForestExamples.
Import HomogeneousRandomForestRegressionModel.

Section Predict.

Context {State M : Type} `{RegressionModel.t State M}.
Implicit Types self : HomogeneousRandomForestRegressionModel.t M.

(** C1.  When the adapter keeps the rows and every member answers with
    one well-formed prediction per row, [predict] returns one Prediction
    per row, in row order.  The Prediction of a row without a valid
    member prediction is invalid and carries the target name only;
    otherwise it is valid, its mean is the mean of the valid members'
    means, its variance is
    [mean(member_variance + member_mean^2) - aggregate_mean^2] over the
    valid members, and its count is their number. *)
Theorem predict_one_prediction_per_row self (features X : DataFrame)
        (predictions : list (list Prediction.t)) (target : string) :
  translate_dataframe (_input_space_adapter self) features = Ok X ->
  len X = len features ->
  mapM (fun estimator => RegressionModel.predict estimator X) (_decision_trees self) =
    Ok predictions ->
  Forall (fun ps => List.length ps = len X) predictions ->
  Forall (Forall well_formed) predictions ->
  target_dimension_names self = [target] ->
  exists out,
    predict self features = Ok out /\
    List.length out = len features /\
    forall i, i < len features ->
      exists observation_predictions means variances,
        predictions_for i predictions observation_predictions /\
        map Prediction.mean (filter Prediction.valid observation_predictions) =
          map Some means /\
        map Prediction.variance (filter Prediction.valid observation_predictions) =
          map Some variances /\
        nth_error out i =
          Some (match filter Prediction.valid observation_predictions with
                | [] =>
                    {| Prediction.target_name := target;
                       Prediction.mean := None;
                       Prediction.variance := None;
                       Prediction.count := None;
                       Prediction.valid := false |}
                | first :: _ =>
                    {| Prediction.target_name := Prediction.target_name first;
                       Prediction.mean := Some (Numpy.mean means);
                       Prediction.variance :=
                         Some (Numpy.mean (second_moments variances means)
                               - Numpy.mean means ^ 2)%Q;
                       Prediction.count :=
                         Some (List.length (filter Prediction.valid observation_predictions));
                       Prediction.valid := true |}
                end).
Proof.
  intros HX Hrows Hpredictions Hlen Hwf Htarget.
  destruct (predict_rows self features X predictions target HX Hpredictions Hlen Hwf Htarget)
    as (out & Hout & Hall).
  exists out. split; [exact Hout|]. split.
  - apply Forall2_length in Hall. rewrite length_seq in Hall. congruence.
  - intros i Hi. rewrite <- Hrows in Hi.
    assert (Hnth : nth_error (seq 0 (len X)) i = Some i).
    { rewrite (nth_error_nth' _ 0) by (rewrite length_seq; exact Hi).
      now rewrite seq_nth. }
    destruct (Forall2_nth_error _ _ _ Hall i i Hnth) as (p & Hp & ops & Hfor & Hops & Hagg).
    destruct (aggregate_row self ops target Htarget Hops) as (ms & vs & Hms & Hvs & Hagg').
    exists ops, ms, vs. repeat split; try assumption.
    rewrite Hp. f_equal. rewrite Hagg' in Hagg. injection Hagg as <-.
    destruct (filter Prediction.valid ops); reflexivity.
Qed.

(** C9.  For a row with at least one valid member prediction, all valid
    member predictions having a variance that is not negative, the
    Prediction returned by [predict] is valid and its variance is not
    negative. *)
Theorem predict_variance_nonnegative self (features X : DataFrame)
        (predictions : list (list Prediction.t)) (target : string)
        (i : nat) (observation_predictions : list Prediction.t) :
  translate_dataframe (_input_space_adapter self) features = Ok X ->
  len X = len features ->
  mapM (fun estimator => RegressionModel.predict estimator X) (_decision_trees self) =
    Ok predictions ->
  Forall (fun ps => List.length ps = len X) predictions ->
  Forall (Forall well_formed) predictions ->
  target_dimension_names self = [target] ->
  i < len features ->
  predictions_for i predictions observation_predictions ->
  filter Prediction.valid observation_predictions <> [] ->
  Forall (fun p => forall v, Prediction.valid p = true ->
                             Prediction.variance p = Some v -> (0 <= v)%Q)
         observation_predictions ->
  exists out p means variances v,
    predict self features = Ok out /\
    nth_error out i = Some p /\
    Prediction.valid p = true /\
    map Prediction.mean (filter Prediction.valid observation_predictions) = map Some means /\
    map Prediction.variance (filter Prediction.valid observation_predictions) =
      map Some variances /\
    v = (Numpy.mean (second_moments variances means) - Numpy.mean means ^ 2)%Q /\
    Prediction.variance p = Some v /\
    (0 <= v)%Q.
Proof.
  intros HX Hrows Hpredictions Hlen Hwf Htarget Hi Hfor Hvalid Hvar.
  destruct (predict_rows self features X predictions target HX Hpredictions Hlen Hwf Htarget)
    as (out & Hout & Hall).
  rewrite <- Hrows in Hi.
  assert (Hnth : nth_error (seq 0 (len X)) i = Some i).
  { rewrite (nth_error_nth' _ 0) by (rewrite length_seq; exact Hi).
    now rewrite seq_nth. }
  destruct (Forall2_nth_error _ _ _ Hall i i Hnth) as (p & Hp & ops & Hfor' & Hops & Hagg).
  assert (ops = observation_predictions) by (eapply predictions_for_unique; eassumption).
  subst ops.
  destruct (aggregate_row self observation_predictions target Htarget Hops)
    as (ms & vs & Hms & Hvs & Hagg').
  rewrite Hagg' in Hagg. injection Hagg as Hpeq.
  destruct (filter Prediction.valid observation_predictions) as [|first rest] eqn:Hfilter;
    [congruence|].
  exists out, p, ms, vs. eexists. subst p. cbn [Prediction.make Prediction.valid
                                               Prediction.variance].
  repeat split; try eassumption; try reflexivity.
  apply total_variance_nonneg.
  - apply (f_equal (@List.length (option Q))) in Hms, Hvs.
    rewrite !length_map in Hms, Hvs. congruence.
  - destruct ms; [discriminate|discriminate].
  - assert (Hin : forall p, In p (first :: rest) ->
                            In p observation_predictions /\ Prediction.valid p = true).
    { intros p Hp'. rewrite <- Hfilter in Hp'. now apply filter_In in Hp'. }
    clear Hfilter Hms Hp Hagg' Hvalid. revert vs Hvs Hin.
    generalize (first :: rest) as l.
    induction l as [|p l IH]; intros [|v vs] Hvs Hin; simpl in Hvs; try discriminate;
      constructor.
    + injection Hvs as Hv _.
      destruct (Hin p (or_introl eq_refl)) as (Hp' & Hpv).
      rewrite Forall_forall in Hvar. exact (Hvar p Hp' v Hpv Hv).
    + injection Hvs as _ Hvs. apply IH; [exact Hvs|].
      intros p' Hp'. apply Hin. now right.
Qed.

End Predict.

Section Fit.

Context {State M : Type}.
Context `{Numpy.Random State} `{RegressionModel.t State M}.
Implicit Types self : HomogeneousRandomForestRegressionModel.t M.

Lemma same_dimensions (trees1 trees2 : list M) (i : nat) (t1 t2 : M) :
  map RegressionModel.input_dimension_names trees1 =
    map RegressionModel.input_dimension_names trees2 ->
  nth_error trees1 i = Some t1 ->
  nth_error trees2 i = Some t2 ->
  RegressionModel.input_dimension_names t1 = RegressionModel.input_dimension_names t2.
Proof.
  intros Hmap H1 H2.
  apply (map_nth_error RegressionModel.input_dimension_names) in H1, H2.
  rewrite Hmap in H1. congruence.
Qed.

(** C4.  The indices drawn for member [i] are those of [selection]: a
    function of [i], of the member's columns and of the data, because
    the generator is reseeded with [i] before the draw.  So two runs of
    the loop of [fit] on the same data draw the same indices for the
    same member, whatever the state of the generator at the start,
    whatever the state of the members and whatever the order in which
    the members are taken; [fit] itself is the loop in the order of the
    members.  A run that does not raise has drawn for every member. *)
Theorem fit_selection_deterministic self1 self2 (features targets X Y : DataFrame)
        (st1 st2 : State) (pairs1 pairs2 : list (nat * M)) :
  _input_space_adapter self1 = _input_space_adapter self2 ->
  _output_space_adapter self1 = _output_space_adapter self2 ->
  model_config self1 = model_config self2 ->
  map RegressionModel.input_dimension_names (_decision_trees self1) =
    map RegressionModel.input_dimension_names (_decision_trees self2) ->
  translate_dataframe (_input_space_adapter self1) features = Ok X ->
  translate_dataframe (_output_space_adapter self1) targets = Ok Y ->
  Permutation pairs1 (enumerate (_decision_trees self1)) ->
  Permutation pairs2 (enumerate (_decision_trees self2)) ->
  let k := num_observations_per_estimator self1 (len X) in
  let loop1 := fit_estimators X Y k st1 pairs1 in
  let loop2 := fit_estimators X Y k st2 pairs2 in
  (forall ev1 ev2,
      In ev1 (events loop1) ->
      In ev2 (events loop2) ->
      estimator_index ev1 = estimator_index ev2 ->
      selected_observation_ids ev1 = selected_observation_ids ev2 /\
      exists tree,
        nth_error (_decision_trees self1) (estimator_index ev1) = Some tree /\
        selection (estimator_index ev1)
                         (RegressionModel.input_dimension_names tree) X k =
          Ok (selected_observation_ids ev1)) /\
  (forall u, outcome loop1 = Ok u ->
             map estimator_index (events loop1) = map fst pairs1) /\
  events (fit self1 st1 features targets) =
    events (fit_estimators X Y k st1
                                         (enumerate (_decision_trees self1))) /\
  events (fit self2 st2 features targets) =
    events (fit_estimators X Y k st2
                                         (enumerate (_decision_trees self2))).
Proof.
  intros Hin Hout Hconfig Hdims HX HY Hperm1 Hperm2 k loop1 loop2.
  split; [|split; [|split]].
  - intros ev1 ev2 Hev1 Hev2 Hidx.
    subst loop1 loop2. unfold events in Hev1, Hev2.
    destruct (fit_estimators X Y k st1 pairs1) as [[[p1 s1] log1] r1] eqn:Hrun1.
    destruct (fit_estimators X Y k st2 pairs2) as [[[p2 s2] log2] r2] eqn:Hrun2.
    cbn [fst snd] in Hev1, Hev2.
    destruct (fit_estimators_events _ _ _ _ _ _ _ _ _ Hrun1 ev1 Hev1) as (t1 & Hin1 & Hsel1).
    destruct (fit_estimators_events _ _ _ _ _ _ _ _ _ Hrun2 ev2 Hev2) as (t2 & Hin2 & Hsel2).
    apply (Permutation_in _ Hperm1) in Hin1. apply (Permutation_in _ Hperm2) in Hin2.
    apply In_nth_error in Hin1, Hin2.
    destruct Hin1 as (j1 & Hj1). destruct Hin2 as (j2 & Hj2).
    apply nth_error_enumerate in Hj1, Hj2.
    destruct Hj1 as (Hi1 & Hn1). destruct Hj2 as (Hi2 & Hn2).
    rewrite <- Hi1 in Hn1. rewrite <- Hi2, <- Hidx in Hn2.
    pose proof (same_dimensions _ _ _ _ _ Hdims Hn1 Hn2) as Hsame.
    rewrite <- Hidx, <- Hsame, Hsel1 in Hsel2. injection Hsel2 as Hids.
    split; [exact Hids|]. exists t1. split; assumption.
  - intros u Hok. subst loop1. unfold outcome, events in *.
    destruct (fit_estimators X Y k st1 pairs1) as [[[p1 s1] log1] r1] eqn:Hrun1.
    cbn [fst snd] in *. subst r1.
    eapply fit_estimators_complete. exact Hrun1.
  - clear loop1 loop2. unfold fit. rewrite HX, HY. fold k.
    destruct (fit_estimators X Y k st1
                (enumerate (_decision_trees self1)))
      as [[[p1 s1] log1] r1].
    reflexivity.
  - clear loop1 loop2. unfold fit. rewrite <- Hin, <- Hout, HX, HY.
    unfold num_observations_per_estimator. rewrite <- Hconfig.
    fold (num_observations_per_estimator self1 (len X)). fold k.
    destruct (fit_estimators X Y k st2
                (enumerate (_decision_trees self2)))
      as [[[p2 s2] log2] r2].
    reflexivity.
Qed.

Context `{!Numpy.RandomLaws State}.


End Fit.

Ltac well_formed_predictions :=
  repeat (constructor;
          try (intros Hvalid; try discriminate Hvalid;
               eexists; eexists; split; reflexivity)).

Lemma predict_one_prediction_per_row_witness :
  exists out,
    predict forest queries = Ok out /\
    List.length out = 2 /\
    nth_error out 0 = Some (Prediction.make "y" (Numpy.mean [1; 3])
                              (Numpy.mean (second_moments [0; 1] [1; 3])
                               - Numpy.mean [1; 3] ^ 2) 2)%Q.
Proof.
  destruct (predict_one_prediction_per_row forest queries queries
              [[Prediction.make "y" 1 0 4; Prediction.make "y" 1 0 4];
               [Prediction.make "y" 3 1 4; Prediction.make "y" 3 1 4];
               [Prediction.invalid "y"; Prediction.invalid "y"]] "y")
    as (out & Hout & Hlen & Hrows);
    try reflexivity; [well_formed_predictions..|].
  exists out. split; [exact Hout|]. split; [exact Hlen|].
  destruct (Hrows 0) as (ops & ms & vs & Hfor & Hms & Hvs & Hnth); [vm_compute; lia|].
  assert (Hops : ops = [Prediction.make "y" 1 0 4; Prediction.make "y" 3 1 4;
                        Prediction.invalid "y"]).
  { eapply predictions_for_unique; [exact Hfor|]. repeat constructor. }
  subst ops. cbn in Hms, Hvs.
  destruct ms as [|m1 [|m2 [|]]]; try discriminate Hms.
  destruct vs as [|v1 [|v2 [|]]]; try discriminate Hvs.
  injection Hms as <- <-. injection Hvs as <- <-. exact Hnth.
Defined.

Lemma predict_variance_nonnegative_witness :
  exists out p v,
    predict forest queries = Ok out /\
    nth_error out 0 = Some p /\
    Prediction.variance p = Some v /\
    (0 <= v)%Q.
Proof.
  destruct (predict_variance_nonnegative forest queries queries
              [[Prediction.make "y" 1 0 4; Prediction.make "y" 1 0 4];
               [Prediction.make "y" 3 1 4; Prediction.make "y" 3 1 4];
               [Prediction.invalid "y"; Prediction.invalid "y"]] "y" 0
              [Prediction.make "y" 1 0 4; Prediction.make "y" 3 1 4; Prediction.invalid "y"])
    as (out & p & ms & vs & v & Hout & Hnth & _ & _ & _ & _ & Hv & Hle);
    try reflexivity.
  - well_formed_predictions.
  - well_formed_predictions.
  - vm_compute. lia.
  - repeat constructor.
  - discriminate.
  - repeat constructor; intros v Hvalid Hv; try discriminate Hvalid;
      injection Hv as <-; discriminate.
  - exists out, p, v. repeat split; assumption.
Defined.

Lemma fit_selection_deterministic_witness :
  selected_observation_ids
    (nth 0 (events (fit_estimators queries targets 2 0
                                   (enumerate (_decision_trees forest)))) no_event) =
  selected_observation_ids
    (nth 2 (events (fit_estimators queries targets 2 7 last_first)) no_event).
Proof.
  apply (proj1 (fit_selection_deterministic forest forest queries targets queries targets
                  0 7 (enumerate (_decision_trees forest)) last_first
                  eq_refl eq_refl eq_refl eq_refl eq_refl eq_refl
                  (Permutation_refl _)
                  (Permutation_sym (Permutation_rev _)))).
  - left. reflexivity.
  - right. right. left. reflexivity.
  - reflexivity.
Defined.


(** C2 fails on the code.  The first of two observations lacks its
    feature; the member is fitted on the feature row of the second
    observation (label 1) and on the target row of the first (label 0):
    the indices drawn over the filtered features are used as they are on
    the targets, which were not filtered. *)
Lemma fit_pairs_features_with_other_targets :
  exists features_given targets_given,
    map fitted_on (events (fit single 0 features targets)) =
      [Some (features_given, targets_given)] /\
    index features_given = [1] /\
    index targets_given = [0].
Proof.
  eexists. eexists. split; [reflexivity|]. split; reflexivity.
Qed.

End ForestClaims.

(** * Further properties of the forest *)

Module ForestExtras.
Import Pandas ForestFacts ForestExamples ForestExtraExamples ForestNotions.
Import HomogeneousRandomForestRegressionModel.
Import Numpy.














Section Predict.

Context {State M : Type} `{RegressionModel.t State M}.
Implicit Types self : HomogeneousRandomForestRegressionModel.t M.



Lemma predictions_at_short (i : nat) (predictions : list (list Prediction.t)) :
  Exists (fun ps => List.length ps <= i) predictions ->
  mapM (prediction_at i) predictions = Raise IndexError.
Proof.
  induction predictions as [|ps predictions IH]; intros Hex; [inversion Hex|].
  cbn [mapM]. unfold prediction_at at 1.
  destruct (nth_error ps i) as [p|] eqn:Hp; [|reflexivity].
  inversion Hex as [? ? Hshort|? ? Hrest]; subst.
  - apply nth_error_None in Hshort. congruence.
  - now rewrite (IH Hrest).
Qed.

Lemma predictions_at_long (i : nat) (predictions : list (list Prediction.t)) :
  Forall (fun ps => i < List.length ps) predictions ->
  Forall (Forall well_formed) predictions ->
  exists observation_predictions,
    mapM (prediction_at i) predictions = Ok observation_predictions /\
    Forall well_formed observation_predictions.
Proof.
  induction 1 as [|ps predictions Hps _ IH]; intros Hwf.
  - exists []. split; [reflexivity|constructor].
  - inversion Hwf as [|? ? Hwf1 Hwf2]; subst.
    destruct (IH Hwf2) as (rest & Hrest & Hall).
    destruct (nth_error ps i) as [p|] eqn:Hp.
    + exists (p :: rest). cbn [mapM]. unfold prediction_at at 1. rewrite Hp, Hrest.
      split; [reflexivity|]. constructor; [|exact Hall].
      apply nth_error_In in Hp. rewrite Forall_forall in Hwf1. now apply Hwf1.
    + apply nth_error_None in Hp. lia.
Qed.

(** X5.  When a member answers with fewer predictions than the table has
    rows, [predict] raises [IndexError]. *)
Theorem predict_short_answer self (features X : DataFrame)
        (predictions : list (list Prediction.t)) (target : string) :
  translate_dataframe (_input_space_adapter self) features = Ok X ->
  mapM (fun estimator => RegressionModel.predict estimator X) (_decision_trees self) =
    Ok predictions ->
  Forall (Forall well_formed) predictions ->
  target_dimension_names self = [target] ->
  Exists (fun ps => List.length ps < len X) predictions ->
  predict self features = Raise IndexError.
Proof.
  intros HX Hpredictions Hwf Htarget Hshort.
  unfold predict. rewrite HX. cbn [bind]. rewrite Hpredictions. cbn [bind].
  assert (Hfrom : Forall (fun ps => 0 <= List.length ps) predictions)
    by (apply Forall_forall; intros; lia).
  change (len X) with (0 + len X) in Hshort.
  revert Hfrom Hshort. generalize 0 as start. generalize (len X) as n.
  induction n as [|n IH]; intros start Hfrom Hshort.
  - exfalso. apply Exists_exists in Hshort. destruct Hshort as (ps & Hin & Hlt).
    rewrite Forall_forall in Hfrom. specialize (Hfrom ps Hin). lia.
  - cbn [seq mapM].
    destruct (Exists_dec (fun ps => List.length ps <= start) predictions) as [Hex|Hall].
    { intros ps. destruct (le_dec (List.length ps) start); [now left|now right]. }
    + rewrite (predictions_at_short start predictions Hex). reflexivity.
    + assert (Hlong : Forall (fun ps => start < List.length ps) predictions).
      { apply Forall_forall. intros ps Hin.
        destruct (le_dec (List.length ps) start) as [Hle|Hgt]; [|lia].
        exfalso. apply Hall. apply Exists_exists. now exists ps. }
      destruct (predictions_at_long start predictions Hlong Hwf) as (ops & Hops & Hopswf).
      rewrite Hops. cbn [bind].
      destruct (aggregate_row self ops target Htarget Hopswf) as (ms & vs & _ & _ & Hagg).
      rewrite Hagg.
      rewrite (IH (S start)); [reflexivity| |].
      * eapply Forall_impl; [|exact Hlong]. intros ps Hps. exact Hps.
      * eapply Exists_impl; [|exact Hshort]. intros ps Hps. cbn beta in *. lia.
Qed.








End Predict.

(** *** The loop of [fit] *)

Lemma select_columns_ok (names : list string) (X df : DataFrame) :
  select_columns names X = Ok df ->
  df = {| columns := names; rows := map (restrict names) (rows X) |}.
Proof.
  unfold select_columns.
  destruct (find (fun c => negb (has_column c (columns X))) names); [discriminate|].
  intros Heq. now injection Heq as <-.
Qed.

Lemma iloc_rows (df out : DataFrame) (ids : list nat) :
  iloc df ids = Ok out ->
  columns out = columns df /\
  Forall2 (fun i r => nth_error (rows df) i = Some r) ids (rows out).
Proof.
  unfold iloc.
  destruct (mapM (fun i => match nth_error (rows df) i with
                           | Some r => Ok r
                           | None => Raise IndexError
                           end) ids) as [rs|e] eqn:Hrs; [|discriminate].
  intros Heq. injection Heq as <-. cbn [columns rows]. split; [reflexivity|].
  apply mapM_Forall2 in Hrs. eapply Forall2_impl; [|exact Hrs].
  intros i r Hr. cbn beta in Hr. destruct (nth_error (rows df) i); [|discriminate].
  now injection Hr as <-.
Qed.

Lemma iloc_same_index (df1 df2 out1 out2 : DataFrame) (ids : list nat) :
  index df1 = index df2 ->
  iloc df1 ids = Ok out1 ->
  iloc df2 ids = Ok out2 ->
  index out1 = index out2.
Proof.
  intros Hindex H1 H2. apply iloc_rows in H1, H2.
  destruct H1 as [_ H1]. destruct H2 as [_ H2]. unfold index in *.
  revert H1 H2. generalize (rows out1) as rs1. generalize (rows out2) as rs2.
  induction ids as [|i ids IH]; intros rs2 rs1 H1 H2; inversion H1; inversion H2; subst.
  - reflexivity.
  - cbn [map]. f_equal; [|now apply IH].
    match goal with
    | Ha : nth_error (rows df1) i = Some ?a, Hb : nth_error (rows df2) i = Some ?b |- _ =>
        apply (map_nth_error fst) in Ha, Hb; rewrite Hindex in Ha; congruence
    end.
Qed.

Lemma filter_true {A : Type} (f : A -> bool) (l : list A) :
  Forall (fun a => f a = true) l -> filter f l = l.
Proof.
  induction 1 as [|a l Ha _ IH]; cbn [filter]; [reflexivity|].
  now rewrite Ha, IH.
Qed.


Section Fit.

Context {State M : Type}.
Context `{Numpy.Random State} `{RegressionModel.t State M}.
Implicit Types self : HomogeneousRandomForestRegressionModel.t M.

(** What the loop handed to a member it fitted. *)
Lemma fit_estimator_fitted (X Y : DataFrame) (k : Z) (st : State) (i : nat) (tree : M)
      (tree' : M) (st' : State) (log : list FitEvent) (r : result unit) :
  fit_estimator X Y k st i tree = (tree', st', log, r) ->
  forall ev fx fy,
    In ev log ->
    fitted_on ev = Some (fx, fy) ->
    exists df,
      select_columns (RegressionModel.input_dimension_names tree) X = Ok df /\
      iloc (filter_notnull df) (selected_observation_ids ev) = Ok fx /\
      iloc Y (selected_observation_ids ev) = Ok fy.
Proof.
  unfold fit_estimator.
  destruct (select_columns (RegressionModel.input_dimension_names tree) X) as [df|e].
  2:{ intros Heq. injection Heq as <- <- <- <-. intros ev fx fy []. }
  destruct (Numpy.randint (Numpy.seed i) 0 (len (filter_notnull df))
              (Z.min (Z.of_nat (len (filter_notnull df))) k)) as [[ids|e] st1].
  2:{ intros Heq. injection Heq as <- <- <- <-. intros ev fx fy []. }
  destruct (RegressionModel.should_fit tree (List.length ids)).
  2:{ intros Heq. injection Heq as <- <- <- <-. intros ev fx fy [<-|[]]. discriminate. }
  destruct (iloc (filter_notnull df) ids) as [features|e] eqn:Hfeatures.
  2:{ intros Heq. injection Heq as <- <- <- <-. intros ev fx fy [<-|[]]. discriminate. }
  destruct (iloc Y ids) as [targets|e] eqn:Htargets.
  2:{ intros Heq. injection Heq as <- <- <- <-. intros ev fx fy [<-|[]]. discriminate. }
  destruct (RegressionModel.fit tree st1 features targets) as [[tree1 st2] r1].
  intros Heq. injection Heq as <- <- <- <-.
  intros ev fx fy [<-|[]] Hfitted. cbn [fitted_on selected_observation_ids] in *.
  injection Hfitted as <- <-. exists df. auto.
Qed.

Lemma fit_estimators_fitted (X Y : DataFrame) (k : Z) (pairs : list (nat * M)) :
  forall (st : State) pairs' st' log r,
    fit_estimators X Y k st pairs = (pairs', st', log, r) ->
    forall ev fx fy,
      In ev log ->
      fitted_on ev = Some (fx, fy) ->
      exists tree df,
        In (estimator_index ev, tree) pairs /\
        select_columns (RegressionModel.input_dimension_names tree) X = Ok df /\
        iloc (filter_notnull df) (selected_observation_ids ev) = Ok fx /\
        iloc Y (selected_observation_ids ev) = Ok fy.
Proof.
  induction pairs as [|[i tree] rest IH]; intros st pairs' st' log r; cbn [fit_estimators].
  - intros Heq. injection Heq as <- <- <- <-. intros ev fx fy [].
  - destruct (fit_estimator X Y k st i tree) as [[[tree1 st1] log1] r1] eqn:Hone.
    assert (Hhere : forall ev fx fy,
               In ev log1 -> fitted_on ev = Some (fx, fy) ->
               exists tree0 df,
                 In (estimator_index ev, tree0) ((i, tree) :: rest) /\
                 select_columns (RegressionModel.input_dimension_names tree0) X = Ok df /\
                 iloc (filter_notnull df) (selected_observation_ids ev) = Ok fx /\
                 iloc Y (selected_observation_ids ev) = Ok fy).
    { intros ev fx fy Hin Hfitted.
      destruct (fit_estimator_event _ _ _ _ _ _ _ _ _ _ Hone ev Hin) as (Hidx & _).
      destruct (fit_estimator_fitted _ _ _ _ _ _ _ _ _ _ Hone ev fx fy Hin Hfitted)
        as (df & Hdf & Hfx & Hfy).
      exists tree, df. rewrite Hidx. split; [now left|]. auto. }
    destruct r1 as [u|e].
    + destruct (fit_estimators X Y k st1 rest) as [[[rest2 st2] log2] r2] eqn:Hrest.
      intros Heq. injection Heq as <- <- <- <-.
      intros ev fx fy Hin Hfitted. apply in_app_or in Hin. destruct Hin as [Hin|Hin].
      * now apply Hhere.
      * destruct (IH _ _ _ _ _ Hrest ev fx fy Hin Hfitted) as (tree0 & df & Hin0 & Hrest0).
        exists tree0, df. split; [now right|exact Hrest0].
    + intros Heq. injection Heq as <- <- <- <-. exact Hhere.
Qed.

Lemma fit_events self (st : State) (features targets X Y : DataFrame) :
  translate_dataframe (_input_space_adapter self) features = Ok X ->
  translate_dataframe (_output_space_adapter self) targets = Ok Y ->
  events (fit self st features targets) =
  events (fit_estimators X Y (num_observations_per_estimator self (len X)) st
                         (enumerate (_decision_trees self))).
Proof.
  intros HX HY. unfold fit. rewrite HX, HY.
  destruct (fit_estimators X Y (num_observations_per_estimator self (len X)) st
                           (enumerate (_decision_trees self))) as [[[p s1] log] r].
  reflexivity.
Qed.

Lemma in_enumerate {A : Type} (l : list A) (i : nat) (a : A) :
  In (i, a) (enumerate l) -> nth_error l i = Some a.
Proof.
  intros Hin. apply In_nth_error in Hin. destruct Hin as (j & Hj).
  apply nth_error_enumerate in Hj. destruct Hj as (-> & Hj). exact Hj.
Qed.

(** X6.  A member is only fitted on complete rows: the feature frame it
    is given has the member's columns, each of its rows is a row of the
    feature table cut down to these columns and without a missing value in
    them, and the target frame has as many rows, all of them rows of the
    target table. *)
Theorem fit_trains_on_complete_rows self (st : State) (features targets X Y : DataFrame)
        (ev : FitEvent) (fx fy : DataFrame) :
  translate_dataframe (_input_space_adapter self) features = Ok X ->
  translate_dataframe (_output_space_adapter self) targets = Ok Y ->
  In ev (events (fit self st features targets)) ->
  fitted_on ev = Some (fx, fy) ->
  exists tree,
    nth_error (_decision_trees self) (estimator_index ev) = Some tree /\
    columns fx = RegressionModel.input_dimension_names tree /\
    Forall (fun r =>
              notnull_all (RegressionModel.input_dimension_names tree) r = true /\
              exists r0, In r0 (rows X) /\
                         r = restrict (RegressionModel.input_dimension_names tree) r0)
           (rows fx) /\
    len fx = List.length (selected_observation_ids ev) /\
    len fy = List.length (selected_observation_ids ev) /\
    Forall (fun r => In r (rows Y)) (rows fy).
Proof.
  intros HX HY Hin Hfitted. rewrite (fit_events self st features targets X Y HX HY) in Hin.
  unfold events in Hin.
  destruct (fit_estimators X Y (num_observations_per_estimator self (len X)) st
                           (enumerate (_decision_trees self))) as [[[p s1] log] r] eqn:Hrun.
  cbn [fst snd] in Hin.
  destruct (fit_estimators_fitted _ _ _ _ _ _ _ _ _ Hrun ev fx fy Hin Hfitted)
    as (tree & df & Hpair & Hdf & Hfx & Hfy).
  apply in_enumerate in Hpair. apply select_columns_ok in Hdf. subst df.
  apply iloc_rows in Hfx, Hfy. destruct Hfx as [Hcols Hfx]. destruct Hfy as [_ Hfy].
  exists tree. split; [exact Hpair|]. split; [exact Hcols|].
  cbn [filter_notnull columns rows] in Hfx. unfold len.
  split; [|split; [|split]].
  - clear Hfy. induction Hfx as [|i row ids rs Hr _ IH]; constructor; [|exact IH].
    apply nth_error_In, filter_In in Hr. destruct Hr as [Hr Hnotnull].
    split; [exact Hnotnull|]. apply in_map_iff in Hr. destruct Hr as (r0 & <- & Hr0).
    now exists r0.
  - symmetry. eapply Forall2_length. exact Hfx.
  - symmetry. eapply Forall2_length. exact Hfy.
  - clear Hfx. induction Hfy as [|i row ids rs Hr _ IH]; constructor; [|exact IH].
    eapply nth_error_In. exact Hr.
Qed.

(** X7.  When no row of the feature table has a missing value in the
    columns of a member and the target table has the index of the feature
    table, the member is fitted on features and targets of the same
    observations: the two frames have the same index. *)
Theorem fit_pairs_rows_when_nothing_is_missing self (st : State)
        (features targets X Y : DataFrame) (ev : FitEvent) (fx fy : DataFrame) (tree : M) :
  translate_dataframe (_input_space_adapter self) features = Ok X ->
  translate_dataframe (_output_space_adapter self) targets = Ok Y ->
  index X = index Y ->
  In ev (events (fit self st features targets)) ->
  fitted_on ev = Some (fx, fy) ->
  nth_error (_decision_trees self) (estimator_index ev) = Some tree ->
  Forall (fun r => notnull_all (RegressionModel.input_dimension_names tree)
                               (restrict (RegressionModel.input_dimension_names tree) r) = true)
         (rows X) ->
  index fx = index fy.
Proof.
  intros HX HY Hindex Hin Hfitted Htree Hcomplete.
  rewrite (fit_events self st features targets X Y HX HY) in Hin.
  unfold events in Hin.
  destruct (fit_estimators X Y (num_observations_per_estimator self (len X)) st
                           (enumerate (_decision_trees self))) as [[[p s1] log] r] eqn:Hrun.
  cbn [fst snd] in Hin.
  destruct (fit_estimators_fitted _ _ _ _ _ _ _ _ _ Hrun ev fx fy Hin Hfitted)
    as (tree0 & df & Hpair & Hdf & Hfx & Hfy).
  apply in_enumerate in Hpair. assert (tree0 = tree) by congruence. subst tree0.
  apply select_columns_ok in Hdf. subst df.
  eapply iloc_same_index; [|exact Hfx|exact Hfy].
  unfold index, filter_notnull. cbn [rows columns].
  rewrite filter_true.
  - rewrite map_map. cbn [restrict fst]. exact Hindex.
  - apply Forall_map. exact Hcomplete.
Qed.

Lemma fit_estimator_keeps_dimensions (X Y : DataFrame) (k : Z) (st : State) (i : nat)
      (tree : M) :
  (forall t s fx fy,
      RegressionModel.input_dimension_names (fst (fst (RegressionModel.fit t s fx fy))) =
      RegressionModel.input_dimension_names t) ->
  RegressionModel.input_dimension_names (fst (fst (fst (fit_estimator X Y k st i tree)))) =
  RegressionModel.input_dimension_names tree.
Proof.
  intros Hkeeps. unfold fit_estimator.
  destruct (select_columns (RegressionModel.input_dimension_names tree) X) as [df|e];
    [|reflexivity].
  destruct (Numpy.randint (Numpy.seed i) 0 (len (filter_notnull df))
              (Z.min (Z.of_nat (len (filter_notnull df))) k)) as [[ids|e] st1];
    [|reflexivity].
  destruct (RegressionModel.should_fit tree (List.length ids)); [|reflexivity].
  destruct (iloc (filter_notnull df) ids) as [fx|e]; [|reflexivity].
  destruct (iloc Y ids) as [fy|e]; [|reflexivity].
  specialize (Hkeeps tree st1 fx fy).
  destruct (RegressionModel.fit tree st1 fx fy) as [[tree1 st2] r1]. exact Hkeeps.
Qed.


Lemma fit_estimators_keeps_dimensions (X Y : DataFrame) (k : Z) (pairs : list (nat * M)) :
  (forall t s fx fy,
      RegressionModel.input_dimension_names (fst (fst (RegressionModel.fit t s fx fy))) =
      RegressionModel.input_dimension_names t) ->
  forall (st : State),
    map (fun p => RegressionModel.input_dimension_names (snd p))
        (fst (fst (fst (fit_estimators X Y k st pairs)))) =
    map (fun p => RegressionModel.input_dimension_names (snd p)) pairs.
Proof.
  intros Hkeeps.
  induction pairs as [|[i tree] rest IH]; intros st; cbn [fit_estimators]; [reflexivity|].
  pose proof (fit_estimator_keeps_dimensions X Y k st i tree Hkeeps) as Hone.
  destruct (fit_estimator X Y k st i tree) as [[[tree1 st1] log1] r1].
  cbn [fst] in Hone.
  destruct r1 as [u|e].
  - specialize (IH st1).
    destruct (fit_estimators X Y k st1 rest) as [[[rest2 st2] log2] r2].
    cbn [fst snd map] in *. now rewrite IH, Hone.
  - cbn [fst snd map]. now rewrite Hone.
Qed.


Lemma fit_keeps_shape_parts self (st : State) (features targets X Y : DataFrame) :
  translate_dataframe (_input_space_adapter self) features = Ok X ->
  translate_dataframe (_output_space_adapter self) targets = Ok Y ->
  (forall t s fx fy,
      RegressionModel.input_dimension_names (fst (fst (RegressionModel.fit t s fx fy))) =
      RegressionModel.input_dimension_names t) ->
  _input_space_adapter (fitted (fit self st features targets)) = _input_space_adapter self /\
  _output_space_adapter (fitted (fit self st features targets)) = _output_space_adapter self /\
  model_config (fitted (fit self st features targets)) = model_config self /\
  map RegressionModel.input_dimension_names
      (_decision_trees (fitted (fit self st features targets))) =
    map RegressionModel.input_dimension_names (_decision_trees self).
Proof.
  intros HX HY Hkeeps. unfold fit, fitted. rewrite HX, HY.
  pose proof (fit_estimators_keeps_dimensions X Y
                (num_observations_per_estimator self (len X))
                (enumerate (_decision_trees self)) Hkeeps st) as Hdims.
  destruct (fit_estimators X Y (num_observations_per_estimator self (len X)) st
                           (enumerate (_decision_trees self))) as [[[p s1] log] r].
  cbn [fst with_decision_trees _decision_trees model_config _input_space_adapter
       _output_space_adapter] in *.
  repeat split.
  rewrite map_map, Hdims, <- (map_map snd RegressionModel.input_dimension_names).
  now rewrite enumerate_snd.
Qed.

(** X9.  Fitting again on the same data draws the same rows: when the
    members' own [fit] keeps their columns, a second [fit] of the forest
    the first one left, from any state of the generator, selects for every
    member the indices the first one selected. *)
Theorem fit_again_draws_the_same self (st1 st2 : State) (features targets X Y : DataFrame)
        (ev1 ev2 : FitEvent) :
  translate_dataframe (_input_space_adapter self) features = Ok X ->
  translate_dataframe (_output_space_adapter self) targets = Ok Y ->
  (forall t s fx fy,
      RegressionModel.input_dimension_names (fst (fst (RegressionModel.fit t s fx fy))) =
      RegressionModel.input_dimension_names t) ->
  In ev1 (events (fit self st1 features targets)) ->
  In ev2 (events (fit (fitted (fit self st1 features targets)) st2 features targets)) ->
  estimator_index ev1 = estimator_index ev2 ->
  selected_observation_ids ev1 = selected_observation_ids ev2.
Proof.
  intros HX HY Hkeeps Hev1 Hev2 Hidx.
  destruct (fit_keeps_shape_parts self st1 features targets X Y HX HY Hkeeps)
    as (Hin & Hout & Hconfig & Hdims).
  rewrite (fit_events self st1 features targets X Y HX HY) in Hev1.
  rewrite (fit_events _ st2 features targets X Y) in Hev2 by congruence.
  unfold num_observations_per_estimator in Hev2. rewrite Hconfig in Hev2.
  fold (num_observations_per_estimator self (len X)) in Hev2.
  set (k := num_observations_per_estimator self (len X)) in *.
  unfold events in Hev1, Hev2.
  destruct (fit_estimators X Y k st1 (enumerate (_decision_trees self)))
    as [[[p1 s1] log1] r1] eqn:Hrun1.
  destruct (fit_estimators X Y k st2
              (enumerate (_decision_trees (fitted (fit self st1 features targets)))))
    as [[[p2 s2] log2] r2] eqn:Hrun2.
  cbn [fst snd] in Hev1, Hev2.
  destruct (fit_estimators_events _ _ _ _ _ _ _ _ _ Hrun1 ev1 Hev1) as (t1 & Hin1 & Hsel1).
  destruct (fit_estimators_events _ _ _ _ _ _ _ _ _ Hrun2 ev2 Hev2) as (t2 & Hin2 & Hsel2).
  apply in_enumerate in Hin1, Hin2. rewrite <- Hidx in Hin2.
  apply (map_nth_error RegressionModel.input_dimension_names) in Hin1, Hin2.
  rewrite Hdims in Hin2. rewrite Hin1 in Hin2. injection Hin2 as Hsame.
  rewrite <- Hidx, <- Hsame, Hsel1 in Hsel2. now injection Hsel2.
Qed.

Context `{!Numpy.RandomLaws State}.


End Fit.

(** *** The properties at concrete inputs *)






Lemma predict_short_answer_witness :
  predict terse queries = Raise IndexError.
Proof.
  apply (predict_short_answer terse queries queries [[]] "y"); try reflexivity.
  - repeat constructor.
  - constructor. vm_compute. lia.
Defined.

Lemma fit_trains_on_complete_rows_witness :
  exists tree,
    nth_error (_decision_trees single) 0 = Some tree /\
    columns (fst (given features)) = RegressionModel.input_dimension_names tree /\
    Forall (fun r =>
              notnull_all (RegressionModel.input_dimension_names tree) r = true /\
              exists r0, In r0 (rows features) /\
                         r = restrict (RegressionModel.input_dimension_names tree) r0)
           (rows (fst (given features))) /\
    len (fst (given features)) = 1 /\
    len (snd (given features)) = 1 /\
    Forall (fun r => In r (rows targets)) (rows (snd (given features))).
Proof.
  apply (fit_trains_on_complete_rows single 0 features targets features targets
           (first_event features) (fst (given features)) (snd (given features))
           eq_refl eq_refl).
  - left. reflexivity.
  - reflexivity.
Defined.

Lemma fit_pairs_rows_when_nothing_is_missing_witness :
  index (fst (given queries)) = index (snd (given queries)).
Proof.
  apply (fit_pairs_rows_when_nothing_is_missing single 0 queries targets queries targets
           (first_event queries) (fst (given queries)) (snd (given queries))
           (mkStub ["x"] 0 (Prediction.invalid "y") []) eq_refl eq_refl eq_refl).
  - left. reflexivity.
  - reflexivity.
  - reflexivity.
  - repeat constructor.
Defined.

Lemma fit_again_draws_the_same_witness :
  selected_observation_ids (first_event queries) = selected_observation_ids second_event.
Proof.
  apply (fit_again_draws_the_same single 0 5 queries targets queries targets
           (first_event queries) second_event eq_refl eq_refl).
  - intros t s fx fy. reflexivity.
  - left. reflexivity.
  - left. reflexivity.
  - reflexivity.
Defined.


End ForestExtras.

(** * Further properties of the optimizer *)

Module OptimizerExtras.
Import Pandas PandasFacts Optimizers OptimizerFacts OptimizerExamples OptimizerNotions.
Import OptimizerFactory OptimizerExtraExamples.

Lemma concat_some_frame {A : Type} (f : A -> option DataFrame) (l : list A) :
  Exists (fun a => f a <> None) l ->
  exists df, concat (map f l) = Ok df.
Proof.
  intros Hex. unfold concat.
  assert (Hsome : drop_none (map f l) <> []).
  { induction Hex as [a l Ha|a l _ IH]; cbn [map drop_none].
    - destruct (f a); [discriminate|now contradiction Ha].
    - destruct (f a); [discriminate|exact IH]. }
  destruct l as [|a l]; [inversion Hex|]. cbn [map] in *.
  destruct (drop_none (f a :: map f l)); [congruence|]. eexists. reflexivity.
Qed.

Lemma index_aligned_index (obs : list Observation) :
  Forall index_aligned obs ->
  map fst (flat_map (fun o : Observation =>
                       map (restrict (columns (fst (fst o)))) (rows (fst (fst o)))) obs) =
  map fst (List.concat (map (fun o : Observation => snd (fst o)) obs)).
Proof.
  induction 1 as [|o obs Ho _ IH]; cbn [flat_map map List.concat]; [reflexivity|].
  rewrite !map_app. f_equal; [|exact IH].
  rewrite map_map. cbn [restrict fst]. apply Ho.
Qed.



Section Extras.

Context {Space Model : Type}.
Variable Space_eq_dec : forall a b : Space, {a = b} + {a <> b}.
Variable impl : Subclass Model.
Implicit Types self : BaseOptimizer Space Model.

(** With aligned scores, one context in the history is enough for
    [get_observations] to raise [NotImplementedError]. *)
Lemma get_observations_context self :
  Forall index_aligned (_observations self) ->
  Exists has_context (_observations self) ->
  get_observations self = Raise NotImplementedError.
Proof.
  intros Hall Hex. unfold get_observations.
  assert (Hne : _observations self <> []).
  { intros Hnil. rewrite Hnil in Hex. inversion Hex. }
  destruct (Nat.eqb_spec (List.length (_observations self)) 0) as [Hlen|_].
  { apply length_zero_iff_nil in Hlen. congruence. }
  rewrite (concat_frames (fun o : Observation => fst (fst o))) by assumption.
  rewrite concat_series_map by assumption.
  destruct (concat_some_frame (fun o : Observation => snd o) _ Hex) as (ctx & Hctx).
  cbn [bind]. rewrite Hctx.
  unfold setitem, index. cbn [rows columns].
  rewrite (index_aligned_index _ Hall), labels_eqb_refl. reflexivity.
Qed.


(** X12.  A context in the history blocks the observations for good: once
    an observation with a context is in the history -- from before or from
    a [register] of the session, whether that call raised or not -- and
    the scores are aligned, [get_observations] and [get_best_observation]
    raise [NotImplementedError]. *)
Theorem context_blocks_observations self (calls : list Call) :
  Forall index_aligned (_observations self ++ registered calls) ->
  Exists has_context (_observations self ++ registered calls) ->
  get_observations (run impl self calls) = Raise NotImplementedError /\
  get_best_observation (run impl self calls) = Raise NotImplementedError.
Proof.
  intros Hall Hex. rewrite <- (OptimizerClaims.run_history impl calls self) in Hall, Hex.
  pose proof (get_observations_context _ Hall Hex) as Hget.
  split; [exact Hget|].
  unfold get_best_observation.
  destruct (Nat.eqb_spec (List.length (_observations (run impl self calls))) 0) as [Hlen|_].
  - apply length_zero_iff_nil in Hlen. rewrite Hlen in Hex. inversion Hex.
  - now rewrite Hget.
Qed.

(** X13.  Round trip through the adapter: when the adapter's
    [inverse_transform] undoes its [transform] on what [_suggest] proposed,
    then [suggest] succeeds, and registering the configuration it returned
    records that configuration in the history and hands [_register] exactly
    what [_suggest] had proposed. *)
Theorem suggest_then_register self (context : option DataFrame) (proposed : DataFrame)
        (m : Model) (scores : Series) (context' : option DataFrame) :
  _suggest impl (model self) context = (m, Ok proposed) ->
  (forall a, _space_adapter self = Some a ->
             exists configuration,
               transform a proposed = Ok configuration /\
               inverse_transform a configuration = Ok proposed) ->
  exists configuration,
    suggest impl self context = (with_model self m, Ok configuration) /\
    _observations (fst (register impl (with_model self m) configuration scores context')) =
      _observations self ++ [(configuration, scores, context')] /\
    model (fst (register impl (with_model self m) configuration scores context')) =
      fst (_register impl m proposed scores context') /\
    snd (register impl (with_model self m) configuration scores context') =
      snd (_register impl m proposed scores context').
Proof.
  intros Hsuggest Hround. unfold suggest. rewrite Hsuggest.
  cbn [with_model _space_adapter].
  destruct (_space_adapter self) as [a|] eqn:Hadapter.
  - destruct (Hround a eq_refl) as (configuration & Htransform & Hinverse).
    exists configuration. rewrite Htransform. split; [reflexivity|].
    unfold register. cbn [with_model with_observations _space_adapter _observations model].
    rewrite Hadapter, Hinverse.
    destruct (_register impl m proposed scores context') as [m' r]. repeat split.
  - exists proposed. split; [reflexivity|].
    unfold register. cbn [with_model with_observations _space_adapter _observations model].
    rewrite Hadapter.
    destruct (_register impl m proposed scores context') as [m' r]. repeat split.
Qed.


End Extras.

Section Factory.

Context {Space Kwargs SpaceAdapterType ConcreteOptimizer : Type}.
Variable space_adapter_class :
  SpaceAdapterType -> Space -> Kwargs -> result (BaseSpaceAdapter Space).
Variable optimizer_class :
  OptimizerType -> Space -> option (BaseSpaceAdapter Space) -> Kwargs ->
  result ConcreteOptimizer.

(** X15.  [OptimizerFactory.create] returns an optimizer only when it is
    given the keyword arguments as mappings: with [optimizer_kwargs] left at
    its default [None] it never returns one, nor with a
    [space_adapter_type] and [space_adapter_kwargs] left at [None]; called
    with nothing but the parameter space it raises [TypeError].  When it
    does return an optimizer, that is the one the class of
    [optimizer_type] builds for the parameter space and the adapter that
    the class of [space_adapter_type], if any, builds for the same space. *)
Theorem create_needs_keyword_arguments (parameter_space : Space)
        (optimizer_type : OptimizerType) (optimizer_kwargs : option Kwargs)
        (space_adapter_type : option SpaceAdapterType)
        (space_adapter_kwargs : option Kwargs) (optimizer : ConcreteOptimizer) :
  create space_adapter_class optimizer_class parameter_space SKOPT None None None =
    Raise TypeError /\
  (create space_adapter_class optimizer_class parameter_space optimizer_type
          optimizer_kwargs space_adapter_type space_adapter_kwargs = Ok optimizer ->
   exists kwargs,
     optimizer_kwargs = Some kwargs /\
     match space_adapter_type with
     | None => optimizer_class optimizer_type parameter_space None kwargs = Ok optimizer
     | Some adapter_type =>
         exists adapter_kwargs adapter,
           space_adapter_kwargs = Some adapter_kwargs /\
           space_adapter_class adapter_type parameter_space adapter_kwargs = Ok adapter /\
           optimizer_class optimizer_type parameter_space (Some adapter) kwargs = Ok optimizer
     end).
Proof.
  split; [reflexivity|].
  unfold create. destruct space_adapter_type as [adapter_type|].
  - destruct space_adapter_kwargs as [adapter_kwargs|]; [|discriminate]. cbn [unpack bind].
    destruct (space_adapter_class adapter_type parameter_space adapter_kwargs)
      as [adapter|e] eqn:Hadapter; [|discriminate].
    cbn [bind]. destruct optimizer_kwargs as [kwargs|]; [|discriminate]. cbn [unpack bind].
    intros Hok. exists kwargs. split; [reflexivity|].
    exists adapter_kwargs, adapter. repeat split; assumption.
  - cbn [bind]. destruct optimizer_kwargs as [kwargs|]; [|discriminate]. cbn [unpack bind].
    intros Hok. exists kwargs. split; [reflexivity|exact Hok].
Qed.

End Factory.

(** *** The properties at concrete inputs *)


Lemma context_blocks_observations_witness :
  get_observations (run refuse_context fresh context_session) = Raise NotImplementedError /\
  get_best_observation (run refuse_context fresh context_session) =
    Raise NotImplementedError.
Proof.
  apply (context_blocks_observations refuse_context fresh context_session).
  - repeat (apply Forall_cons; [reflexivity|]). apply Forall_nil.
  - apply Exists_cons_hd. discriminate.
Defined.

Lemma suggest_then_register_witness :
  exists configuration,
    suggest accept_all adapting None = (with_model adapting tt, Ok configuration) /\
    _observations (fst (register accept_all (with_model adapting tt) configuration
                                 [(0, 5%Q)] None)) =
      [(configuration, [(0, 5%Q)], None)] /\
    model (fst (register accept_all (with_model adapting tt) configuration [(0, 5%Q)] None)) =
      tt /\
    snd (register accept_all (with_model adapting tt) configuration [(0, 5%Q)] None) = Ok tt.
Proof.
  apply (suggest_then_register accept_all adapting None (configs [(0, 1%Q)]) tt
           [(0, 5%Q)] None).
  - reflexivity.
  - intros a Ha. injection Ha as <-. exists (configs [(0, 1%Q)]). split; reflexivity.
Defined.


Lemma create_needs_keyword_arguments_witness :
  exists kwargs adapter_kwargs adapter,
    Some [("seed", 1%Q)] = Some kwargs /\
    Some [] = Some adapter_kwargs /\
    adapter_class tt "space" adapter_kwargs = Ok adapter /\
    base_class RANDOM "space" (Some adapter) kwargs =
      Ok (mkOptimizer "space" "target" (Some (identity_adapter "space" "target")) [] [] tt).
Proof.
  destruct (proj2 (create_needs_keyword_arguments adapter_class base_class "space" RANDOM
                     (Some [("seed", 1%Q)]) (Some tt) (Some [])
                     (mkOptimizer "space" "target"
                                  (Some (identity_adapter "space" "target")) [] [] tt))
                  eq_refl)
    as (kwargs & Hkwargs & adapter_kwargs & adapter & Hadapter_kwargs & Hadapter & Hbuilt).
  exists kwargs, adapter_kwargs, adapter. repeat split; assumption.
Defined.

End OptimizerExtras.

(** * Properties of the construction of the forest *)

Module ConstructionExtras.
Import Pandas ForestFacts.
Import HomogeneousRandomForestRegressionModel.
Import ForestExamples ForestConstruction ConstructionExamples.

Lemma mapM_length {A B : Type} (f : A -> result B) (l : list A) (out : list B) :
  mapM f l = Ok out -> List.length out = List.length l.
Proof.
  intros Hout. apply mapM_Forall2 in Hout. symmetry. eapply Forall2_length. exact Hout.
Qed.

Section Construction.

Context {Domain Hypergrid PyRandom M : Type}.
Context `{Environment Domain Hypergrid PyRandom M}.

(** The loop appends one tree per index. *)
Lemma loop_appends (model_config : Config) (input_space output_space : Hypergrid)
      (range : list nat) :
  forall (trees : list M) (st : PyRandom) (trees' : list M) (st' : PyRandom),
    create_estimators_loop model_config input_space output_space range trees st =
      (Ok trees', st') ->
    exists created,
      trees' = trees ++ created /\
      List.length created = List.length range /\
      Forall (fun tree =>
                exists i st1 st2 estimator_input_space estimator_output_space,
                  fst (_create_random_flat_subspace input_space ("estimator_" ++ format i ++ "_input_space")
                                (features_per_estimator model_config input_space) st1) =
                    Ok estimator_input_space /\
                  fst (_create_random_flat_subspace output_space ("estimator_" ++ format i ++ "_output_space")
                                1%Z st2) = Ok estimator_output_space /\
                  new_tree model_config estimator_input_space estimator_output_space =
                    Ok tree)
             created.
Proof.
  induction range as [|i range IH]; intros trees st trees' st'; cbn [create_estimators_loop].
  - intros Heq. injection Heq as <- <-. exists []. rewrite app_nil_r.
    repeat split. constructor.
  - destruct (create_estimator model_config input_space output_space i st) as [[tree|e] st1] eqn:Hone;
      [|discriminate].
    intros Hrest. destruct (IH _ _ _ _ Hrest) as (created & -> & Hlen & Hall).
    exists (tree :: created). rewrite <- app_assoc. split; [reflexivity|].
    split; [cbn [List.length]; now rewrite Hlen|].
    constructor; [|exact Hall].
    unfold create_estimator in Hone.
    destruct (_create_random_flat_subspace input_space ("estimator_" ++ format i ++ "_input_space")
                       (features_per_estimator model_config input_space) st) as [[gi|e] sa] eqn:Hin;
      [|discriminate].
    destruct (_create_random_flat_subspace output_space ("estimator_" ++ format i ++ "_output_space") 1%Z sa)
      as [[go|e] sb] eqn:Hout; [|discriminate].
    injection Hone as Htree _.
    exists i, st, sa, gi, go. rewrite Hin, Hout. auto.
Qed.

(** X16.  The constructor insists on a single target: when the adapted
    output space does not have exactly one dimension, it fails with the
    assertion "Single target predictions for now." before anything is
    drawn from the generator; and a forest it returns has exactly one
    target name, the name of that dimension, exactly [n_estimators]
    members, and the configuration and the adapters it was given. *)
Theorem init_builds_the_ensemble (model_config : Config) (input_space output_space : Hypergrid)
        (st : PyRandom) :
  (List.length (adapter_dimensions output_space) <> 1 ->
   __init__ model_config input_space output_space st =
     (Failed (AssertionError "Single target predictions for now."), st)) /\
  (forall self,
      fst (__init__ model_config input_space output_space st) = Built self ->
      (exists target,
          map name (adapter_dimensions output_space) = [target] /\
          target_dimension_names self = [target]) /\
      List.length (_decision_trees self) = n_estimators model_config /\
      model_config = HomogeneousRandomForestRegressionModel.model_config self /\
      _input_space_adapter self = adapter_of input_space /\
      _output_space_adapter self = adapter_of output_space).
Proof.
  unfold __init__. rewrite length_map. split.
  - intros Hne. destruct (Nat.eqb_spec (List.length (adapter_dimensions output_space)) 1);
      [contradiction|reflexivity].
  - intros self.
    destruct (Nat.eqb_spec (List.length (adapter_dimensions output_space)) 1) as [Hone|_];
      [|discriminate].
    unfold _create_estimators.
    destruct (create_estimators_loop model_config input_space output_space
                                     (seq 0 (n_estimators model_config)) [] (random_random st)) as [[trees|e] st'] eqn:Hloop; [|discriminate].
    cbn [fst]. intros Hbuilt. injection Hbuilt as <-.
    cbn [target_dimension_names _decision_trees HomogeneousRandomForestRegressionModel.model_config
         _input_space_adapter _output_space_adapter].
    destruct (loop_appends _ _ _ _ _ _ _ _ Hloop) as (created & -> & Hlen & _).
    repeat split.
    + destruct (adapter_dimensions output_space) as [|d [|d' rest]]; try discriminate.
      exists (name d). split; reflexivity.
    + cbn [app]. now rewrite Hlen, length_seq.
Qed.

(** X17.  With [random.sample] returning as many names of its population
    as it is asked for, and a sampled point whose names are dimensions of
    the space, [_create_random_flat_subspace] returns a hypergrid with the
    name it was given and [min(len(point), max_num_dimensions)] dimensions,
    each one a copy, under the flattened name, of the dimension of the
    space that a name of the point stands for. *)
Theorem flat_subspace_of_a_point (original_space : Hypergrid) (subspace_name : string)
        (max_num_dimensions : Z) (st : PyRandom) :
  (forall s population k,
      (0 <= k <= Z.of_nat (List.length population))%Z ->
      exists selected s',
        random_sample s population k = (Ok selected, s') /\
        Z.of_nat (List.length selected) = k /\
        incl selected population) ->
  (forall n, In n (map fst (fst (hypergrid_random original_space st))) ->
             exists d, hypergrid_getitem original_space n = Ok d) ->
  (0 <= max_num_dimensions)%Z ->
  exists flat_hypergrid st',
    _create_random_flat_subspace original_space subspace_name max_num_dimensions st =
      (Ok flat_hypergrid, st') /\
    grid_name flat_hypergrid = subspace_name /\
    Z.of_nat (List.length (dimensions flat_hypergrid)) =
      Z.min (Z.of_nat (List.length (fst (hypergrid_random original_space st))))
            max_num_dimensions /\
    Forall (fun d =>
              exists n original,
                In n (map fst (fst (hypergrid_random original_space st))) /\
                hypergrid_getitem original_space n = Ok original /\
                d = mkDimension (flatten_dimension_name n) (domain original))
           (dimensions flat_hypergrid).
Proof.
  intros Hsample Hpoint Hmax. unfold _create_random_flat_subspace.
  destruct (hypergrid_random original_space st) as [point st1]. cbn [fst] in *.
  destruct (Hsample st1 (map fst point)
                    (Z.min (Z.of_nat (List.length (map fst point))) max_num_dimensions))
    as (selected & st2 & Hdraw & Hlen & Hincl); [lia|].
  rewrite Hdraw.
  assert (Hflat : exists flat_dimensions,
             mapM (flat_dimension original_space) selected = Ok flat_dimensions /\
             Forall (fun d =>
                       exists n original,
                         In n (map fst point) /\
                         hypergrid_getitem original_space n = Ok original /\
                         d = mkDimension (flatten_dimension_name n) (domain original))
                    flat_dimensions).
  { clear Hdraw Hlen. induction selected as [|n selected IH].
    - exists []. split; [reflexivity|constructor].
    - destruct IH as (rest & Hrest & Hall).
      { intros x Hx. apply Hincl. now right. }
      destruct (Hpoint n) as (d & Hd); [apply Hincl; now left|].
      exists (mkDimension (flatten_dimension_name n) (domain d) :: rest).
      cbn [mapM]. unfold flat_dimension at 1. rewrite Hd, Hrest.
      split; [reflexivity|]. constructor; [|exact Hall].
      exists n, d. repeat split; [apply Hincl; now left|exact Hd]. }
  destruct Hflat as (flat_dimensions & Hflat & Hall). rewrite Hflat.
  eexists. eexists. split; [reflexivity|]. cbn [grid_name dimensions].
  split; [reflexivity|]. split; [|exact Hall].
  rewrite (mapM_length _ _ _ Hflat), Hlen, length_map. reflexivity.
Qed.



Context {State : Type} `{RegressionModel.t State M}.


End Construction.

(** *** The properties at concrete inputs *)

Lemma first_names_draws (s : nat) (population : list string) (k : Z) :
  (0 <= k <= Z.of_nat (List.length population))%Z ->
  exists selected s',
    first_names s population k = (Ok selected, s') /\
    Z.of_nat (List.length selected) = k /\
    incl selected population.
Proof.
  intros Hk. unfold first_names.
  destruct (Z.leb_spec 0 k) as [_|Hneg]; [|lia].
  destruct (Z.leb_spec k (Z.of_nat (List.length population))) as [_|Hbig]; [|lia].
  cbn [andb]. eexists. eexists. split; [reflexivity|]. split.
  - rewrite length_firstn. lia.
  - intros x Hx. rewrite <- (firstn_skipn (Z.to_nat k) population). apply in_or_app. now left.
Qed.


Lemma init_builds_the_ensemble_witness :
  construct two_outputs = (Failed (AssertionError "Single target predictions for now."), 0) /\
  exists self,
    fst (construct output) = Built self /\
    target_dimension_names self = ["y"] /\
    List.length (_decision_trees self) = 2.
Proof.
  split.
  - apply (proj1 (init_builds_the_ensemble two_thirds inputs two_outputs 0)). discriminate.
  - assert (Hbuilt : exists self, fst (__init__ two_thirds inputs output 0) = Built self).
    { vm_compute. eexists. reflexivity. }
    destruct Hbuilt as [self Hbuilt]. exists self. split; [exact Hbuilt|].
    destruct (proj2 (init_builds_the_ensemble two_thirds inputs output 0) self Hbuilt)
      as ((target & Hnames & Htarget) & Hmembers & _).
    injection Hnames as <-. split; [exact Htarget|exact Hmembers].
Defined.

Lemma flat_subspace_of_a_point_witness :
  exists flat_hypergrid st',
    _create_random_flat_subspace inputs "estimator_0_input_space" 2 0 =
      (Ok flat_hypergrid, st') /\
    grid_name flat_hypergrid = "estimator_0_input_space" /\
    Z.of_nat (List.length (dimensions flat_hypergrid)) = 2%Z.
Proof.
  destruct (flat_subspace_of_a_point inputs "estimator_0_input_space" 2 0)
    as (flat_hypergrid & st' & Hsubspace & Hname & Hsize & _).
  - exact first_names_draws.
  - intros n [<-|[<-|[<-|[]]]]; eexists; reflexivity.
  - lia.
  - exists flat_hypergrid, st'. split; [exact Hsubspace|]. split; [exact Hname|].
    exact Hsize.
Defined.


End ConstructionExtras.
